(** * Installer: install configuration and the bootstrap ignition asset

    A shallow embedding of two Go sources of the installer:
    - package [types] (the install configuration, its [MasterCount] and
      [Platform.Name] accessors);
    - package [bootstrap] (the [Bootstrap] writable asset: [Dependencies],
      [Generate], [Files], [Load]).

    Go values are modelled as follows.  A [string] is a [String.string]; a
    [[]byte] is a [list Byte.byte]; a pointer that may be nil is an [option];
    an [int]/[int64] is a [Z] (the platform [int] is taken to be 64 bits wide,
    so the conversion [int(x)] of an [int64] is the identity); a Go
    [map[string]string] is a [gmap string string] whose iteration order is
    chosen by the runtime; a method with a pointer receiver that assigns
    fields takes the receiver's value and returns the updated one. *)

From Stdlib Require Import ZArith String Ascii List.
From stdpp Require Import base option list gmap strings pretty.

Local Open Scope string_scope.
Set Warnings "-register-all".

Abbreviation bytes := (list Byte.byte).

(** ** Package [types] *)

Module types.

(** Name constants of the supported platforms. *)
Definition PlatformNameAWS : string := "aws".
Definition PlatformNameOpenstack : string := "openstack".
Definition PlatformNameLibvirt : string := "libvirt".

(** [MachinePool] is declared in a sibling file of the package; the two
    fields read by [MasterCount] are kept: the pool's name and its
    optional ([*int64]) replica count. *)
Record MachinePool := {
  mp_Name : string;
  mp_Replicas : option Z
}.

(** The per-platform structures ([aws.Platform], [libvirt.Platform],
    [openstack.Platform]) belong to other packages.  [Platform] only holds
    pointers to them and [Name] only tests these pointers against nil, so
    their content is kept as an uninterpreted blob. *)
Definition aws_Platform : Type := string.
Definition libvirt_Platform : Type := string.
Definition openstack_Platform : Type := string.

Record Platform := {
  AWS : option aws_Platform;
  Libvirt : option libvirt_Platform;
  OpenStack : option openstack_Platform
}.

Record Admin := {
  Email : string;
  Password : string;
  SSHKey : string
}.

(** [ipnet.IPNet]: an address and a mask, as byte strings. *)
Record IPNet := {
  IP : bytes;
  Mask : bytes
}.

Record ClusterNetwork := {
  CIDR : string;
  HostSubnetLength : Z
}.

Record Networking := {
  Type_ : string;
  ServiceCIDR : IPNet;
  ClusterNetworks : list ClusterNetwork;
  PodCIDR : option IPNet
}.

(** [InstallConfig]; of the embedded [metav1.ObjectMeta] the [Name] field
    is kept (the only one read by the code modelled here). *)
Record InstallConfig := {
  ObjectMeta_Name : string;
  ClusterID : string;
  ic_Admin : Admin;
  BaseDomain : string;
  ic_Networking : Networking;
  Machines : list MachinePool;
  ic_Platform : Platform;
  PullSecret : string
}.

(** The loop of [MasterCount]: it returns at the first pool whose name is
    "master" and whose [Replicas] pointer is not nil; [None] when the loop
    runs to its end. *)
Fixpoint MasterCount_loop (ms : list MachinePool) : option Z :=
  match ms with
  | [] => None
  | m :: rest =>
      match String.eqb (mp_Name m) "master", mp_Replicas m with
      | true, Some r => Some r
      | _, _ => MasterCount_loop rest
      end
  end.

(** [func (c *InstallConfig) MasterCount() int] *)
Definition MasterCount (c : InstallConfig) : Z :=
  match MasterCount_loop (Machines c) with
  | Some r => r
  | None => 1%Z
  end.

(** A pool decides [MasterCount] when it is called "master" and carries
    a replica count. *)
Definition decides (m : MachinePool) : Prop :=
  mp_Name m = "master" /\ mp_Replicas m <> None.

(** [func (p *Platform) Name() string]; the receiver may be nil. *)
Definition Name (p : option Platform) : string :=
  match p with
  | None => ""
  | Some p =>
      if bool_decide (AWS p <> None) then PlatformNameAWS
      else if bool_decide (Libvirt p <> None) then PlatformNameLibvirt
      else if bool_decide (OpenStack p <> None) then PlatformNameOpenstack
      else ""
  end.

End types.

(** ** Go values shared by the packages below *)

(** Error values.  [ErrNotExist] stands for the errors recognised by
    [os.IsNotExist] (a path error whose cause is "file does not exist");
    [ErrWrap] is the result of [errors.Wrap]/[errors.Wrapf] of package
    [github.com/pkg/errors], which [os.IsNotExist] does not look through. *)
Inductive error :=
| ErrNotExist (path : string)
| ErrOther (msg : string)
| ErrWrap (cause : error) (msg : string).

Definition os_IsNotExist (err : error) : bool :=
  match err with
  | ErrNotExist _ => true
  | _ => false
  end.

(** [errors.Wrap(err, msg)]: nil stays nil. *)
Definition errors_Wrap (err : option error) (msg : string) : option error :=
  match err with
  | None => None
  | Some e => Some (ErrWrap e msg)
  end.

(** ** A state monad with panics

    A method that mutates its receiver and may panic is a function from the
    state before the call to the state at the point where the call returned
    or panicked, with either the returned value or the panic. *)

Inductive Res (A : Type) :=
| Done (x : A)
| Panicked (msg : string).
Arguments Done {A} x.
Arguments Panicked {A} msg.

Definition M (S A : Type) : Type := S -> S * Res A.

Definition ret {S A} (x : A) : M S A := fun s => (s, Done x).

Definition bind {S A B} (m : M S A) (k : A -> M S B) : M S B :=
  fun s =>
    match m s with
    | (s', Done x) => k x s'
    | (s', Panicked msg) => (s', Panicked msg)
    end.

Definition panic {S A} (msg : string) : M S A := fun s => (s, Panicked msg).
Definition put_state {S} (s : S) : M S unit := fun _ => (s, Done tt).

#[export] Instance M_ret {S} : MRet (M S) := fun A => @ret S A.
#[export] Instance M_bind {S} : MBind (M S) := fun A B k m => @bind S A B m k.

(** [for _, x := range xs { body x }] over a slice (or over the entries of
    a map in the order chosen for them). *)
Fixpoint for_range {S A} (xs : list A) (body : A -> M S unit) : M S unit :=
  match xs with
  | [] => ret tt
  | x :: rest => body x;; for_range rest body
  end.

(** A call of [m] from a state satisfying [P] ends, by returning or by
    panicking, in a result and a state related by [Q]. *)
Definition triple {S A} (P : S -> Prop) (m : M S A)
    (Q : Res A -> S -> Prop) : Prop :=
  forall s, P s -> Q (m s).2 (m s).1.

(** [m] keeps [P]: whatever way it ends, [P] still holds. *)
Definition pres {S A} (P : S -> Prop) (m : M S A) : Prop :=
  triple P m (fun _ => P).

(** ** Package [asset] and the ignition types *)

Module asset.

(** [asset.File] *)
Record File := {
  Filename : string;
  Data : bytes
}.

(** The identity of an asset: in Go the dynamic type of the pointer
    passed to [Parents.Get] or listed by [Dependencies].  The types named
    in [bootstrap.go] have a constructor each; [other_asset] stands for any
    other type that implements [asset.Asset], by its type name, so that a
    request for a type outside a given list can be written down. *)
Inductive AssetKind :=
| installconfig_InstallConfig
| tls_RootCA
| tls_EtcdCA
| tls_IngressCertKey
| tls_KubeCA
| tls_AggregatorCA
| tls_ServiceServingCA
| tls_ClusterAPIServerCertKey
| tls_EtcdClientCertKey
| tls_APIServerCertKey
| tls_OpenshiftAPIServerCertKey
| tls_APIServerProxyCertKey
| tls_AdminCertKey
| tls_KubeletCertKey
| tls_MCSCertKey
| tls_ServiceAccountKeyPair
| kubeconfig_Admin
| kubeconfig_Kubelet
| manifests_Manifests
| manifests_Tectonic
| other_asset (type_name : string).

#[export] Instance AssetKind_eq_dec : EqDecision AssetKind.
Proof. solve_decision. Defined.

(** What [Generate] reads from a resolved dependency: the result of its
    [Files()] method, of its [Cert()] method (the certificate assets) and
    its [Config] field (the install configuration asset, whose pointer is
    set once that asset is resolved). *)
Record Resolved := {
  ra_Files : list File;
  ra_Cert : bytes;
  ra_Config : types.InstallConfig
}.

(** [asset.Parents]: a map from asset type to resolved instance. *)
Definition Parents : Type := AssetKind -> option Resolved.

(** [asset.FileFetcher]: [FetchByName] returns a file pointer and an
    error. *)
Record FileFetcher := {
  FetchByName : string -> option File * option error
}.

End asset.

Module igntypes.

(** [igntypes.File], with its path, its permission bits and its content
    (in the ignition format a data URL; here the bytes it stands for). *)
Record File := {
  Path : string;
  Mode : Z;
  Contents : bytes
}.

Record Unit := {
  u_Name : string;
  u_Contents : string;
  u_Enabled : option bool
}.

Record PasswdUser := {
  pu_Name : string;
  SSHAuthorizedKeys : list string
}.

(** [igntypes.Config], with the fields [Generate] sets:
    [Ignition.Version], [Storage.Files], [Systemd.Units], [Passwd.Users]. *)
Record Config := {
  Ignition_Version : string;
  Storage_Files : list File;
  Systemd_Units : list Unit;
  Passwd_Users : list PasswdUser
}.

End igntypes.

(** ** Package [bootstrap] *)

Module bootstrap.
Import asset.

Definition rootDir : string := "/opt/tectonic".
Definition defaultReleaseImage : string :=
  "registry.svc.ci.openshift.org/openshift/origin-release:v4.0".
Definition bootstrapIgnFilename : string := "bootstrap.ign".

(** The name of the environment variable looked up by [getTemplateData]. *)
Definition releaseImageOverrideVar : string :=
  "OPENSHIFT_INSTALL_RELEASE_IMAGE_OVERRIDE".

(** Permission bits written in octal in the source ([0600], [0555],
    [0644]). *)
Definition octal (u g o : Z) : Z := (u * 64 + g * 8 + o)%Z.

Record bootstrapTemplateData := {
  BootkubeImage : string;
  ClusterDNSIP : string;
  EtcdCertSignerImage : string;
  EtcdCluster : string;
  EtcdctlImage : string;
  ReleaseImage : string
}.

(** A parsed [text/template.Template]: its name and its [Execute] method,
    which renders the template on the data it is given (here a pointer to
    the template data) and returns the text written and an error. *)
Record Template := {
  tmpl_Name : string;
  tmpl_Execute : option bootstrapTemplateData -> string * option error
}.

(** Package [content] of the installer holds the texts and templates of
    the bootstrap files.  It is outside the listing, so its exported
    variables are taken as parameters, with the types at which
    [bootstrap.go] uses them. *)
Class Content := {
  BootkubeSystemdContents : string;
  TectonicSystemdContents : string;
  ReportSystemdContents : string;
  KubeletSystemdContents : string;
  ReportShFileContents : string;
  TectonicShFileContents : string;
  BootkubeShFileTemplate : Template;
  BootkubeConfigOverrides : list Template;
  PodCheckpointerBootkubeManifests : gmap string string;
  KubeProxyBootkubeManifests : gmap string string;
  KubeDNSBootkubeManifests : gmap string string;
  BootkubeKubeDNSService : Template
}.

(** Functions of other packages called by [bootstrap.go], taken as
    parameters: [json.Marshal] and [json.Unmarshal] (the latter decodes into
    the configuration it is given and returns it updated), [filepath.Join],
    [installconfig.ClusterDNSIP], [igntypes.MaxVersion.String()], and the
    constructors of ignition files of package [ignition] of the installer
    ([FileFromBytes], [FileFromString] and, from the files of a resolved
    asset, [FilesFromAsset]).

    Two more parameters stand for what the listing leaves open.
    [makeslice_max_len] is the largest length for which the Go runtime
    accepts [make([]string, n)]: below zero and above it [make] panics with
    "len out of range" (running out of memory at an accepted length is not
    modelled).  [Parents_Get_absent] is what [Parents.Get] of package
    [asset] does when the view holds no instance of the requested type: it
    panics, or it hands back some instance (such as the zero value the
    caller passed in); neither the listing nor the specification says
    which. *)
Class Externals := {
  json_Marshal : igntypes.Config -> bytes * option error;
  json_Unmarshal : bytes -> igntypes.Config -> igntypes.Config * option error;
  filepath_Join : list string -> string;
  installconfig_ClusterDNSIP : types.InstallConfig -> string * option error;
  igntypes_MaxVersion_String : string;
  FileFromBytes : string -> Z -> bytes -> igntypes.File;
  FileFromString : string -> Z -> string -> igntypes.File;
  FilesFromAsset : string -> Z -> Resolved -> list igntypes.File;
  makeslice_max_len : Z;
  Parents_Get_absent : AssetKind -> Res Resolved
}.

(** The three [range] statements over a map. *)
Inductive RangeSite :=
| RangePodCheckpointer
| RangeKubeProxy
| RangeKubeDNS.

(** What one run of the process gets from its surroundings: the process
    environment, and for each [range] over a map the order in which the
    runtime hands out the map's entries (Go does not specify that order
    and varies it from one run to the next). *)
Record Runtime := {
  os_LookupEnv : string -> option string;
  map_range : RangeSite -> gmap string string -> list (string * string)
}.

(** A runtime is well formed when every iteration order lists exactly the
    entries of the map. *)
Definition Runtime_wf (rt : Runtime) : Prop :=
  forall site (m : gmap string string), map_range rt site m ≡ₚ map_to_list m.

(** [type Bootstrap struct]: both fields are pointers. *)
Record Bootstrap := {
  Config : option igntypes.Config;
  File : option asset.File
}.

(** The zero value [&Bootstrap{}]. *)
Definition Bootstrap_zero : Bootstrap := {| Config := None; File := None |}.

(** The state threaded through [Generate]: the receiver, and the list of
    the asset types passed to [Parents.Get] so far (a trace kept for the
    statements about the dependencies read; no code reads it). *)
Record GenSt := {
  recv : Bootstrap;
  requested : list AssetKind
}.

(** [func (a *Bootstrap) Dependencies() []asset.Asset] *)
Definition Dependencies : list AssetKind :=
  [ installconfig_InstallConfig;
    tls_RootCA;
    tls_EtcdCA;
    tls_IngressCertKey;
    tls_KubeCA;
    tls_AggregatorCA;
    tls_ServiceServingCA;
    tls_ClusterAPIServerCertKey;
    tls_EtcdClientCertKey;
    tls_APIServerCertKey;
    tls_OpenshiftAPIServerCertKey;
    tls_APIServerProxyCertKey;
    tls_AdminCertKey;
    tls_KubeletCertKey;
    tls_MCSCertKey;
    tls_ServiceAccountKeyPair;
    kubeconfig_Admin;
    kubeconfig_Kubelet;
    manifests_Manifests;
    manifests_Tectonic ].

(** [func (a *Bootstrap) Name() string] *)
Definition Name : string := "Bootstrap Ignition Config".

(** [func (a *Bootstrap) Files() []*asset.File] *)
Definition Files (a : Bootstrap) : list asset.File :=
  match File a with
  | Some f => [f]
  | None => []
  end.

(** The requests made so far are all for declared dependencies. *)
Definition requests_declared (s : GenSt) : Prop :=
  requested s ⊆ Dependencies.

(** What a request for the type [k] yields: the instance the view holds
    for [k], and for a type the view does not hold whatever [Parents.Get]
    does then. *)
Definition Parents_lookup {ext : Externals} (dependencies : Parents)
    (k : AssetKind) : Res Resolved :=
  match dependencies k with
  | Some r => Done r
  | None => Parents_Get_absent k
  end.

(** Modelled from the spec: [Parents.Get] belongs to package [asset],
    outside the listing.  The spec describes the view as a mapping from
    descriptor to resolved instance in which only the declared
    dependencies are guaranteed to be present; [Get] copies the instance
    stored for the requested type into the pointer it is given.  For a type
    the view does not hold the spec says nothing, and the outcome is the
    parameter [Parents_Get_absent]. *)
Definition Parents_Get {ext : Externals} (dependencies : Parents)
    (k : AssetKind) : M GenSt Resolved :=
  fun s =>
    ({| recv := recv s; requested := requested s ++ [k] |},
     Parents_lookup dependencies k).

(** Reading [a.Config] through the pointer, and assigning to it. *)
Definition Config_deref : M GenSt igntypes.Config :=
  fun s =>
    match Config (recv s) with
    | Some c => (s, Done c)
    | None => (s, Panicked "invalid memory address or nil pointer dereference")
    end.

Definition Config_assign (c : igntypes.Config) : M GenSt unit :=
  fun s =>
    ({| recv := {| Config := Some c; File := File (recv s) |};
        requested := requested s |}, Done tt).

Definition File_assign (f : asset.File) : M GenSt unit :=
  fun s =>
    ({| recv := {| Config := Config (recv s); File := Some f |};
        requested := requested s |}, Done tt).

(** [a.Config.Storage.Files = append(a.Config.Storage.Files, fs...)],
    where computing the appended files may itself panic. *)
Definition append_Storage_Files (fs : M GenSt (list igntypes.File))
  : M GenSt unit :=
  c ← Config_deref;
  new ← fs;
  Config_assign
    {| igntypes.Ignition_Version := igntypes.Ignition_Version c;
       igntypes.Storage_Files := igntypes.Storage_Files c ++ new;
       igntypes.Systemd_Units := igntypes.Systemd_Units c;
       igntypes.Passwd_Users := igntypes.Passwd_Users c |}.

Definition append_Systemd_Units (us : list igntypes.Unit) : M GenSt unit :=
  c ← Config_deref;
  Config_assign
    {| igntypes.Ignition_Version := igntypes.Ignition_Version c;
       igntypes.Storage_Files := igntypes.Storage_Files c;
       igntypes.Systemd_Units := igntypes.Systemd_Units c ++ us;
       igntypes.Passwd_Users := igntypes.Passwd_Users c |}.

Definition append_Passwd_Users (us : list igntypes.PasswdUser)
  : M GenSt unit :=
  c ← Config_deref;
  Config_assign
    {| igntypes.Ignition_Version := igntypes.Ignition_Version c;
       igntypes.Storage_Files := igntypes.Storage_Files c;
       igntypes.Systemd_Units := igntypes.Systemd_Units c;
       igntypes.Passwd_Users := igntypes.Passwd_Users c ++ us |}.

(** [fmt.Sprintf("https://%s-etcd-%d.%s:2379", name, i, baseDomain)] *)
Definition etcdEndpoint (name : string) (i : nat) (baseDomain : string)
  : string :=
  "https://" +:+ name +:+ "-etcd-" +:+ pretty i +:+ "." +:+ baseDomain
    +:+ ":2379".

(** [strings.Join] *)
Definition strings_Join (elems : list string) (sep : string) : string :=
  String.concat sep elems.

Section WithCollaborators.
Context {content : Content} {ext : Externals}.

(** [func applyTemplateData]: a failing template panics. *)
Definition applyTemplateData {S} (template : Template)
    (templateData : option bootstrapTemplateData) : M S string :=
  match tmpl_Execute template templateData with
  | (_, Some err) => panic "template: execution failed"
  | (buf, None) => ret buf
  end.

(** [func (a *Bootstrap) getTemplateData]; the warning it logs when the
    override is found is not part of the model.  [make] panics when the
    master count is negative or larger than the runtime accepts. *)
Definition getTemplateData {S} (rt : Runtime)
    (installConfig : types.InstallConfig)
  : M S (option bootstrapTemplateData * option error) :=
  match installconfig_ClusterDNSIP installConfig with
  | (_, Some err) =>
      ret (None,
           errors_Wrap (Some err) "failed to get ClusterDNSIP from InstallConfig")
  | (clusterDNSIP, None) =>
      let n := types.MasterCount installConfig in
      if ((n <? 0) || (makeslice_max_len <? n))%Z
      then panic "makeslice: len out of range"
      else
        let etcdEndpoints :=
          map (fun i => etcdEndpoint (types.ObjectMeta_Name installConfig) i
                          (types.BaseDomain installConfig))
              (seq 0 (Z.to_nat n)) in
        let releaseImage :=
          match os_LookupEnv rt releaseImageOverrideVar with
          | Some ri => if String.eqb ri "" then defaultReleaseImage else ri
          | None => defaultReleaseImage
          end in
        ret (Some {| ClusterDNSIP := clusterDNSIP;
                     EtcdCertSignerImage :=
                       "quay.io/coreos/kube-etcd-signer-server:678cc8e6841e2121ebfdb6e2db568fce290b67d6";
                     EtcdctlImage := "quay.io/coreos/etcd:v3.2.14";
                     BootkubeImage := "quay.io/coreos/bootkube:v0.10.0";
                     ReleaseImage := releaseImage;
                     EtcdCluster := strings_Join etcdEndpoints "," |},
             None)
  end.

(** [func (a *Bootstrap) addBootstrapFiles] *)
Definition addBootstrapFiles (dependencies : Parents) : M GenSt unit :=
  kubeletKubeconfig ← Parents_Get dependencies kubeconfig_Kubelet;
  append_Storage_Files
    (match ra_Files kubeletKubeconfig with
     | f0 :: _ =>
         ret [FileFromBytes "/etc/kubernetes/kubeconfig" (octal 6 0 0)
                (Data f0)]
     | [] => panic "index out of range"
     end);;
  append_Storage_Files
    (ret [FileFromString "/usr/local/bin/report-progress.sh" (octal 5 5 5)
            ReportShFileContents]).

(** [func (a *Bootstrap) addBootkubeFiles] *)
Definition addBootkubeFiles (dependencies : Parents)
    (templateData : option bootstrapTemplateData) : M GenSt unit :=
  let bootkubeConfigOverridesDir :=
    filepath_Join [rootDir; "bootkube-config-overrides"] in
  adminKubeconfig ← Parents_Get dependencies kubeconfig_Admin;
  manifests ← Parents_Get dependencies manifests_Manifests;
  append_Storage_Files
    (text ← applyTemplateData BootkubeShFileTemplate templateData;
     ret [FileFromString "/usr/local/bin/bootkube.sh" (octal 5 5 5) text]);;
  for_range BootkubeConfigOverrides (fun o =>
    append_Storage_Files
      (text ← applyTemplateData o templateData;
       ret [FileFromString
              (filepath_Join [bootkubeConfigOverridesDir; tmpl_Name o])
              (octal 6 0 0) text]));;
  append_Storage_Files
    (ret (FilesFromAsset rootDir (octal 6 0 0) adminKubeconfig));;
  append_Storage_Files
    (ret (FilesFromAsset rootDir (octal 6 4 4) manifests)).

(** One [for name, data := range m] loop of
    [addTemporaryBootkubeFiles]: the entries of the map, in the order
    the runtime yields them, each appended under [dir]. *)
Definition addManifests (rt : Runtime) (site : RangeSite) (dir : string)
    (m : gmap string string) : M GenSt unit :=
  for_range (map_range rt site m) (fun entry =>
    append_Storage_Files
      (ret [FileFromString (filepath_Join [dir; entry.1]) (octal 6 4 4)
              entry.2])).

(** [func (a *Bootstrap) addTemporaryBootkubeFiles] *)
Definition addTemporaryBootkubeFiles (rt : Runtime)
    (templateData : option bootstrapTemplateData) : M GenSt unit :=
  let podCheckpointerBootstrapDir :=
    filepath_Join [rootDir; "pod-checkpointer-operator-bootstrap"] in
  addManifests rt RangePodCheckpointer podCheckpointerBootstrapDir
    PodCheckpointerBootkubeManifests;;
  let kubeProxyBootstrapDir :=
    filepath_Join [rootDir; "kube-proxy-operator-bootstrap"] in
  addManifests rt RangeKubeProxy kubeProxyBootstrapDir
    KubeProxyBootkubeManifests;;
  let kubeDNSBootstrapDir :=
    filepath_Join [rootDir; "kube-dns-operator-bootstrap"] in
  addManifests rt RangeKubeDNS kubeDNSBootstrapDir
    KubeDNSBootkubeManifests;;
  append_Storage_Files
    (text ← applyTemplateData BootkubeKubeDNSService templateData;
     ret [FileFromString
            (filepath_Join [kubeDNSBootstrapDir; "kube-dns-svc.yaml"])
            (octal 6 4 4) text]).

(** [func (a *Bootstrap) addTectonicFiles] *)
Definition addTectonicFiles (dependencies : Parents) : M GenSt unit :=
  tectonic ← Parents_Get dependencies manifests_Tectonic;
  append_Storage_Files
    (ret [FileFromString "/usr/local/bin/tectonic.sh" (octal 5 5 5)
            TectonicShFileContents]);;
  append_Storage_Files
    (ret (FilesFromAsset rootDir (octal 6 4 4) tectonic)).

(** The certificate assets walked by [addTLSCertFiles]. *)
Definition tlsCertAssets : list AssetKind :=
  [ tls_RootCA;
    tls_KubeCA;
    tls_AggregatorCA;
    tls_ServiceServingCA;
    tls_EtcdCA;
    tls_ClusterAPIServerCertKey;
    tls_EtcdClientCertKey;
    tls_APIServerCertKey;
    tls_OpenshiftAPIServerCertKey;
    tls_APIServerProxyCertKey;
    tls_AdminCertKey;
    tls_KubeletCertKey;
    tls_MCSCertKey;
    tls_ServiceAccountKeyPair ].

(** [func (a *Bootstrap) addTLSCertFiles] *)
Definition addTLSCertFiles (dependencies : Parents) : M GenSt unit :=
  for_range tlsCertAssets (fun k =>
    asset ← Parents_Get dependencies k;
    append_Storage_Files
      (ret (FilesFromAsset rootDir (octal 6 0 0) asset)));;
  etcdClientCertKey ← Parents_Get dependencies tls_EtcdClientCertKey;
  append_Storage_Files
    (ret [FileFromBytes "/etc/ssl/etcd/ca.crt" (octal 6 0 0)
            (ra_Cert etcdClientCertKey)]).

(** [func (a *Bootstrap) Generate(dependencies asset.Parents) error] *)
Definition Generate (rt : Runtime) (dependencies : Parents)
  : M GenSt (option error) :=
  installConfig ← Parents_Get dependencies installconfig_InstallConfig;
  res ← getTemplateData rt (ra_Config installConfig);
  match res with
  | (_, Some err) =>
      ret (errors_Wrap (Some err) "failed to get bootstrap templates")
  | (templateData, None) =>
      Config_assign
        {| igntypes.Ignition_Version := igntypes_MaxVersion_String;
           igntypes.Storage_Files := [];
           igntypes.Systemd_Units := [];
           igntypes.Passwd_Users := [] |};;
      addBootstrapFiles dependencies;;
      addBootkubeFiles dependencies templateData;;
      addTemporaryBootkubeFiles rt templateData;;
      addTectonicFiles dependencies;;
      addTLSCertFiles dependencies;;
      append_Systemd_Units
        [ {| igntypes.u_Name := "bootkube.service";
             igntypes.u_Contents := BootkubeSystemdContents;
             igntypes.u_Enabled := None |};
          {| igntypes.u_Name := "tectonic.service";
             igntypes.u_Contents := TectonicSystemdContents;
             igntypes.u_Enabled := None |};
          {| igntypes.u_Name := "progress.service";
             igntypes.u_Contents := ReportSystemdContents;
             igntypes.u_Enabled := Some true |};
          {| igntypes.u_Name := "kubelet.service";
             igntypes.u_Contents := KubeletSystemdContents;
             igntypes.u_Enabled := Some true |} ];;
      append_Passwd_Users
        [ {| igntypes.pu_Name := "core";
             igntypes.SSHAuthorizedKeys :=
               [types.SSHKey (types.ic_Admin (ra_Config installConfig))] |} ];;
      config ← Config_deref;
      match json_Marshal config with
      | (_, Some err) =>
          ret (errors_Wrap (Some err) "failed to Marshal Ignition config")
      | (data, None) =>
          File_assign {| Filename := bootstrapIgnFilename; Data := data |};;
          ret None
      end
  end.

(** Running [Generate] on a receiver: the receiver afterwards, the asset
    types requested on the way, and the error returned or the panic. *)
Definition run_Generate (rt : Runtime) (dependencies : Parents)
    (a : Bootstrap) : GenSt * Res (option error) :=
  Generate rt dependencies {| recv := a; requested := [] |}.

(** The zero value [&igntypes.Config{}] into which [Load] decodes. *)
Definition Config_zero : igntypes.Config :=
  {| igntypes.Ignition_Version := "";
     igntypes.Storage_Files := [];
     igntypes.Systemd_Units := [];
     igntypes.Passwd_Users := [] |}.

(** [func (a *Bootstrap) Load(f asset.FileFetcher) (found bool, err error)] *)
Definition Load (f : FileFetcher) : M Bootstrap (bool * option error) :=
  match FetchByName f bootstrapIgnFilename with
  | (_, Some err) =>
      if os_IsNotExist err then ret (false, None)
      else ret (false, Some err)
  | (None, None) =>
      panic "invalid memory address or nil pointer dereference"
  | (Some file, None) =>
      match json_Unmarshal (Data file) Config_zero with
      | (_, Some err) =>
          ret (false, errors_Wrap (Some err) "failed to unmarshal")
      | (config, None) =>
          put_state {| Config := Some config; File := Some file |};;
          ret (true, None)
      end
  end.

(** The receivers on which no call of [Generate] or [Load] has succeeded
    yet: the zero value, and what a failed call (an error, a panic, a
    "not found") leaves of such a receiver. *)
Inductive never_succeeded : Bootstrap -> Prop :=
| ns_zero : never_succeeded Bootstrap_zero
| ns_Generate rt dependencies a :
    never_succeeded a ->
    (run_Generate rt dependencies a).2 <> Done None ->
    never_succeeded (recv (run_Generate rt dependencies a).1)
| ns_Load f a :
    never_succeeded a ->
    (forall err, (Load f a).2 <> Done (true, err)) ->
    never_succeeded (Load f a).1.

(** The ignition files of the entries of a map, in a given order. *)
Definition manifest_files (dir : string) (entries : list (string * string))
  : list igntypes.File :=
  map (fun entry =>
         FileFromString (filepath_Join [dir; entry.1]) (octal 6 4 4) entry.2)
      entries.

(** Two runtimes iterate the three content maps in the same order. *)
Definition same_iteration (rt1 rt2 : Runtime) : Prop :=
  map_range rt1 RangePodCheckpointer PodCheckpointerBootkubeManifests
  = map_range rt2 RangePodCheckpointer PodCheckpointerBootkubeManifests
  /\ map_range rt1 RangeKubeProxy KubeProxyBootkubeManifests
     = map_range rt2 RangeKubeProxy KubeProxyBootkubeManifests
  /\ map_range rt1 RangeKubeDNS KubeDNSBootkubeManifests
     = map_range rt2 RangeKubeDNS KubeDNSBootkubeManifests.

(** The bytes of the files of a receiver, as text. *)
Definition Files_text (a : Bootstrap) : list string :=
  map (fun f => string_of_list_byte (Data f)) (Files a).

(** *** What the steps of [Generate] produce

    The lists below describe, as plain values, what the steps append to
    [a.Config.Storage.Files] and what [Generate] builds; the properties
    relate the code to them. *)

(** [cfg] with [fs] appended to its storage files. *)
Definition Config_with_files (cfg : igntypes.Config)
    (fs : list igntypes.File) : igntypes.Config :=
  {| igntypes.Ignition_Version := igntypes.Ignition_Version cfg;
     igntypes.Storage_Files := igntypes.Storage_Files cfg ++ fs;
     igntypes.Systemd_Units := igntypes.Systemd_Units cfg;
     igntypes.Passwd_Users := igntypes.Passwd_Users cfg |}.

(** The state [s] once the asset types [ks] were requested and [a.Config]
    points to [cfg]. *)
Definition stepped (s : GenSt) (ks : list AssetKind) (cfg : igntypes.Config)
  : GenSt :=
  {| recv := {| Config := Some cfg; File := File (recv s) |};
     requested := requested s ++ ks |}.

(** The text a template renders on [td]. *)
Definition rendered (t : Template) (td : option bootstrapTemplateData)
  : string :=
  (tmpl_Execute t td).1.

(** A template executes on [td] without error. *)
Definition executes (t : Template) (td : option bootstrapTemplateData)
  : Prop :=
  (tmpl_Execute t td).2 = None.

(** The two files of [addBootstrapFiles], from the first file of the
    kubelet kubeconfig. *)
Definition bootstrap_files (f0 : asset.File) : list igntypes.File :=
  [ FileFromBytes "/etc/kubernetes/kubeconfig" (octal 6 0 0) (Data f0);
    FileFromString "/usr/local/bin/report-progress.sh" (octal 5 5 5)
      ReportShFileContents ].

(** The files of the configuration overrides, one for each template. *)
Definition override_files (td : option bootstrapTemplateData)
    (overrides : list Template) : list igntypes.File :=
  map (fun o =>
         FileFromString
           (filepath_Join
              [filepath_Join [rootDir; "bootkube-config-overrides"];
               tmpl_Name o])
           (octal 6 0 0) (rendered o td))
      overrides.

(** The files of [addBootkubeFiles]. *)
Definition bootkube_files (td : option bootstrapTemplateData)
    (adminKubeconfig manifests : Resolved) : list igntypes.File :=
  [ FileFromString "/usr/local/bin/bootkube.sh" (octal 5 5 5)
      (rendered BootkubeShFileTemplate td) ]
  ++ override_files td BootkubeConfigOverrides
  ++ FilesFromAsset rootDir (octal 6 0 0) adminKubeconfig
  ++ FilesFromAsset rootDir (octal 6 4 4) manifests.

(** The files of [addTemporaryBootkubeFiles], the entries of each map in
    the order of the runtime. *)
Definition temporary_bootkube_files (rt : Runtime)
    (td : option bootstrapTemplateData) : list igntypes.File :=
  manifest_files
    (filepath_Join [rootDir; "pod-checkpointer-operator-bootstrap"])
    (map_range rt RangePodCheckpointer PodCheckpointerBootkubeManifests)
  ++ manifest_files
       (filepath_Join [rootDir; "kube-proxy-operator-bootstrap"])
       (map_range rt RangeKubeProxy KubeProxyBootkubeManifests)
  ++ manifest_files
       (filepath_Join [rootDir; "kube-dns-operator-bootstrap"])
       (map_range rt RangeKubeDNS KubeDNSBootkubeManifests)
  ++ [ FileFromString
         (filepath_Join
            [filepath_Join [rootDir; "kube-dns-operator-bootstrap"];
             "kube-dns-svc.yaml"])
         (octal 6 4 4) (rendered BootkubeKubeDNSService td) ].

(** The files of [addTectonicFiles]. *)
Definition tectonic_files (tectonic : Resolved) : list igntypes.File :=
  [ FileFromString "/usr/local/bin/tectonic.sh" (octal 5 5 5)
      TectonicShFileContents ]
  ++ FilesFromAsset rootDir (octal 6 4 4) tectonic.

(** The files of the certificate assets [ks], asset after asset. *)
Definition cert_files (r : AssetKind -> Resolved) (ks : list AssetKind)
  : list igntypes.File :=
  concat (map (fun k => FilesFromAsset rootDir (octal 6 0 0) (r k)) ks).

(** The files of [addTLSCertFiles]. *)
Definition tls_files (r : AssetKind -> Resolved) : list igntypes.File :=
  cert_files r tlsCertAssets
  ++ [ FileFromBytes "/etc/ssl/etcd/ca.crt" (octal 6 0 0)
         (ra_Cert (r tls_EtcdClientCertKey)) ].

(** The asset types [Generate] requests on a run that goes through, in the
    order of the requests. *)
Definition Generate_trace : list AssetKind :=
  [ installconfig_InstallConfig; kubeconfig_Kubelet; kubeconfig_Admin;
    manifests_Manifests; manifests_Tectonic ]
  ++ tlsCertAssets ++ [ tls_EtcdClientCertKey ].

(** The configuration [Generate] builds from the resolved dependencies [r],
    the template data [td] and the first file [f0] of the kubelet
    kubeconfig. *)
Definition generated_Config (rt : Runtime) (r : AssetKind -> Resolved)
    (td : option bootstrapTemplateData) (f0 : asset.File) : igntypes.Config :=
  {| igntypes.Ignition_Version := igntypes_MaxVersion_String;
     igntypes.Storage_Files :=
       bootstrap_files f0
       ++ bootkube_files td (r kubeconfig_Admin) (r manifests_Manifests)
       ++ temporary_bootkube_files rt td
       ++ tectonic_files (r manifests_Tectonic)
       ++ tls_files r;
     igntypes.Systemd_Units :=
       [ {| igntypes.u_Name := "bootkube.service";
            igntypes.u_Contents := BootkubeSystemdContents;
            igntypes.u_Enabled := None |};
         {| igntypes.u_Name := "tectonic.service";
            igntypes.u_Contents := TectonicSystemdContents;
            igntypes.u_Enabled := None |};
         {| igntypes.u_Name := "progress.service";
            igntypes.u_Contents := ReportSystemdContents;
            igntypes.u_Enabled := Some true |};
         {| igntypes.u_Name := "kubelet.service";
            igntypes.u_Contents := KubeletSystemdContents;
            igntypes.u_Enabled := Some true |} ];
     igntypes.Passwd_Users :=
       [ {| igntypes.pu_Name := "core";
            igntypes.SSHAuthorizedKeys :=
              [ types.SSHKey
                  (types.ic_Admin
                     (ra_Config (r installconfig_InstallConfig))) ] |} ] |}.

(** What a run of [Generate] needs from its inputs to reach the point where
    the configuration is marshalled: every dependency of the trace is
    present, the template data is computed without error, the kubelet
    kubeconfig has a first file, and every template executes. *)
Record Generate_inputs (rt : Runtime) (dependencies : Parents)
    (r : AssetKind -> Resolved) (td : option bootstrapTemplateData)
    (f0 : asset.File) : Prop := {
  gi_present : forall k, k ∈ Generate_trace -> dependencies k = Some (r k);
  gi_templateData :
    (getTemplateData rt (ra_Config (r installconfig_InstallConfig)) tt).2
    = Done (td, None);
  gi_kubeconfig : head (ra_Files (r kubeconfig_Kubelet)) = Some f0;
  gi_bootkube_sh : executes BootkubeShFileTemplate td;
  gi_overrides : Forall (fun o => executes o td) BootkubeConfigOverrides;
  gi_dns_service : executes BootkubeKubeDNSService td
}.

(** The same with a weaker first condition: a request for each type of the
    trace yields the instance [r k], be it held by the view or handed back
    by [Parents.Get] for an absent type. *)
Record Generate_obtained (rt : Runtime) (dependencies : Parents)
    (r : AssetKind -> Resolved) (td : option bootstrapTemplateData)
    (f0 : asset.File) : Prop := {
  go_obtained :
    forall k, k ∈ Generate_trace -> Parents_lookup dependencies k = Done (r k);
  go_templateData :
    (getTemplateData rt (ra_Config (r installconfig_InstallConfig)) tt).2
    = Done (td, None);
  go_kubeconfig : head (ra_Files (r kubeconfig_Kubelet)) = Some f0;
  go_bootkube_sh : executes BootkubeShFileTemplate td;
  go_overrides : Forall (fun o => executes o td) BootkubeConfigOverrides;
  go_dns_service : executes BootkubeKubeDNSService td
}.

(** The instance a request for each asset type yields, with [dflt] where
    the request panics. *)
Definition obtained_or (dependencies : Parents) (dflt : Resolved)
  : AssetKind -> Resolved :=
  fun k =>
    match Parents_lookup dependencies k with
    | Done r => r
    | Panicked _ => dflt
    end.

End WithCollaborators.

End bootstrap.

(** ** A JSON codec for the ignition configuration

    [encoding/json] enters [bootstrap.go] through [json.Marshal] and
    [json.Unmarshal] on an [igntypes.Config].  The statements below hold for
    any implementation of the two; to run the code on concrete inputs this
    module gives one for the fields of the configuration that are modelled:
    a printer and a parser of JSON text (objects, arrays, strings, integers,
    booleans, null; ASCII text) and the mapping between JSON objects and
    [igntypes.Config], which like Go ignores unknown keys and leaves absent
    fields at their zero value. *)

Module json.

Inductive value :=
| Null
| Bool (b : bool)
| Number (n : Z)
| Str (s : string)
| Array (elems : list value)
| Object (members : list (string * value)).

Definition dquote : ascii := "034"%char.
Definition backslash : ascii := "092"%char.
Definition str1 (c : ascii) : string := String c EmptyString.

Definition hex_char (n : N) : ascii :=
  match String.get (N.to_nat n) "0123456789abcdef" with
  | Some c => c
  | None => "0"%char
  end.

(** Go escapes the quote, the backslash, control characters and, by
    default, the characters [<], [>] and [&]. *)
Definition escape_char (c : ascii) : string :=
  let n := N_of_ascii c in
  if Ascii.eqb c dquote then String backslash (str1 dquote)
  else if Ascii.eqb c backslash then String backslash (str1 backslash)
  else if Ascii.eqb c "010"%char then String backslash "n"
  else if Ascii.eqb c "013"%char then String backslash "r"
  else if Ascii.eqb c "009"%char then String backslash "t"
  else if ((n <? 32) || (n =? 60) || (n =? 62) || (n =? 38))%N
       then String backslash
              ("u00" +:+ String (hex_char (n / 16)) (str1 (hex_char (n mod 16))))
  else str1 c.

Fixpoint escape (s : string) : string :=
  match s with
  | EmptyString => EmptyString
  | String c r => escape_char c +:+ escape r
  end.

Definition quote (s : string) : string :=
  str1 dquote +:+ escape s +:+ str1 dquote.

Fixpoint print (v : value) : string :=
  match v with
  | Null => "null"
  | Bool true => "true"
  | Bool false => "false"
  | Number n => pretty n
  | Str s => quote s
  | Array elems =>
      "[" +:+ String.concat "," (map print elems) +:+ "]"
  | Object members =>
      "{" +:+ String.concat ","
                (map (fun kv => quote kv.1 +:+ ":" +:+ print kv.2) members)
          +:+ "}"
  end.

Definition is_ws (c : ascii) : bool :=
  Ascii.eqb c " "%char || Ascii.eqb c "010"%char || Ascii.eqb c "013"%char
  || Ascii.eqb c "009"%char.

Fixpoint skip_ws (s : string) : string :=
  match s with
  | String c r => if is_ws c then skip_ws r else s
  | EmptyString => s
  end.

Definition digit_val (c : ascii) : option Z :=
  let n := Z.of_N (N_of_ascii c) in
  if ((48 <=? n) && (n <=? 57))%Z then Some (n - 48)%Z else None.

Definition hex_val (c : ascii) : option N :=
  let n := N_of_ascii c in
  if ((48 <=? n) && (n <=? 57))%N then Some (n - 48)%N
  else if ((97 <=? n) && (n <=? 102))%N then Some (n - 87)%N
  else if ((65 <=? n) && (n <=? 70))%N then Some (n - 55)%N
  else None.

(** The digits at the front of [s], read as a number continuing [acc]. *)
Fixpoint parse_digits (acc : Z) (s : string) : Z * string :=
  match s with
  | String c r =>
      match digit_val c with
      | Some d => parse_digits (acc * 10 + d) r
      | None => (acc, s)
      end
  | EmptyString => (acc, s)
  end.

Definition starts_with_digit (s : string) : bool :=
  match s with
  | String c _ => bool_decide (digit_val c <> None)
  | EmptyString => false
  end.

Definition simple_escape (e : ascii) : option ascii :=
  if Ascii.eqb e dquote then Some dquote
  else if Ascii.eqb e backslash then Some backslash
  else if Ascii.eqb e "/"%char then Some "/"%char
  else if Ascii.eqb e "n"%char then Some "010"%char
  else if Ascii.eqb e "r"%char then Some "013"%char
  else if Ascii.eqb e "t"%char then Some "009"%char
  else if Ascii.eqb e "b"%char then Some "008"%char
  else if Ascii.eqb e "f"%char then Some "012"%char
  else None.

(** The rest of a string literal, after its opening quote. *)
Fixpoint parse_chars (s : string) : option (string * string) :=
  match s with
  | EmptyString => None
  | String c r =>
      if Ascii.eqb c dquote then Some (EmptyString, r)
      else if Ascii.eqb c backslash then
        match r with
        | String "u"%char (String "0"%char (String "0"%char
            (String h1 (String h2 r')))) =>
            match hex_val h1, hex_val h2, parse_chars r' with
            | Some a, Some b, Some (t, rest) =>
                Some (String (ascii_of_N (a * 16 + b)) t, rest)
            | _, _, _ => None
            end
        | String e r' =>
            match simple_escape e, parse_chars r' with
            | Some x, Some (t, rest) => Some (String x t, rest)
            | _, _ => None
            end
        | EmptyString => None
        end
      else
        match parse_chars r with
        | Some (t, rest) => Some (String c t, rest)
        | None => None
        end
  end.

Definition strip_prefix (p s : string) : option string :=
  if String.prefix p s
  then Some (String.substring (String.length p)
               (String.length s - String.length p) s)
  else None.

(** Recursive descent, with a bound on the recursion that the length of
    the text always covers. *)
Fixpoint parse_value (fuel : nat) (s : string) : option (value * string) :=
  match fuel with
  | O => None
  | S fuel =>
      match skip_ws s with
      | String "{"%char r =>
          match skip_ws r with
          | String "}"%char r' => Some (Object [], r')
          | _ =>
              match parse_members fuel r with
              | Some (ms, r') => Some (Object ms, r')
              | None => None
              end
          end
      | String "["%char r =>
          match skip_ws r with
          | String "]"%char r' => Some (Array [], r')
          | _ =>
              match parse_elems fuel r with
              | Some (vs, r') => Some (Array vs, r')
              | None => None
              end
          end
      | String "-"%char r =>
          if starts_with_digit r
          then let (n, r') := parse_digits 0 r in Some (Number (- n), r')
          else None
      | String c r as t =>
          if Ascii.eqb c dquote then
            match parse_chars r with
            | Some (x, r') => Some (Str x, r')
            | None => None
            end
          else if starts_with_digit t
          then let (n, r') := parse_digits 0 t in Some (Number n, r')
          else
            match strip_prefix "true" t, strip_prefix "false" t,
                  strip_prefix "null" t with
            | Some r', _, _ => Some (Bool true, r')
            | _, Some r', _ => Some (Bool false, r')
            | _, _, Some r' => Some (Null, r')
            | _, _, _ => None
            end
      | EmptyString => None
      end
  end
with parse_elems (fuel : nat) (s : string)
  : option (list value * string) :=
  match fuel with
  | O => None
  | S fuel =>
      match parse_value fuel s with
      | Some (v, r) =>
          match skip_ws r with
          | String ","%char r' =>
              match parse_elems fuel r' with
              | Some (vs, r'') => Some (v :: vs, r'')
              | None => None
              end
          | String "]"%char r' => Some ([v], r')
          | _ => None
          end
      | None => None
      end
  end
with parse_members (fuel : nat) (s : string)
  : option (list (string * value) * string) :=
  match fuel with
  | O => None
  | S fuel =>
      match skip_ws s with
      | String c r =>
          if Ascii.eqb c dquote then
            match parse_chars r with
            | Some (k, r1) =>
                match skip_ws r1 with
                | String ":"%char r2 =>
                    match parse_value fuel r2 with
                    | Some (v, r3) =>
                        match skip_ws r3 with
                        | String ","%char r4 =>
                            match parse_members fuel r4 with
                            | Some (ms, r5) => Some ((k, v) :: ms, r5)
                            | None => None
                            end
                        | String "}"%char r4 => Some ([(k, v)], r4)
                        | _ => None
                        end
                    | None => None
                    end
                | _ => None
                end
            | None => None
            end
          else None
      | EmptyString => None
      end
  end.

(** A whole text: one value and nothing but white space after it. *)
Definition parse (s : string) : option value :=
  match parse_value (2 + String.length s) s with
  | Some (v, r) =>
      match skip_ws r with
      | EmptyString => Some v
      | _ => None
      end
  | None => None
  end.

End json.

(** The mapping between [igntypes.Config] and JSON objects, following the
    keys of the ignition 2.2 format. *)
Module codec.
Import json.

Definition encode_File (f : igntypes.File) : value :=
  Object [ ("filesystem", Str "root");
           ("path", Str (igntypes.Path f));
           ("contents",
             Object [("source",
                      Str ("data:," +:+ string_of_list_byte (igntypes.Contents f)))]);
           ("mode", Number (igntypes.Mode f)) ].

Definition encode_Unit (u : igntypes.Unit) : value :=
  Object (("contents", Str (igntypes.u_Contents u))
          :: match igntypes.u_Enabled u with
             | Some b => [("enabled", Bool b)]
             | None => []
             end
          ++ [("name", Str (igntypes.u_Name u))]).

Definition encode_PasswdUser (u : igntypes.PasswdUser) : value :=
  Object [ ("name", Str (igntypes.pu_Name u));
           ("sshAuthorizedKeys", Array (map Str (igntypes.SSHAuthorizedKeys u))) ].

Definition encode_Config (c : igntypes.Config) : value :=
  Object [ ("ignition", Object [("version", Str (igntypes.Ignition_Version c))]);
           ("passwd", Object [("users", Array (map encode_PasswdUser (igntypes.Passwd_Users c)))]);
           ("storage", Object [("files", Array (map encode_File (igntypes.Storage_Files c)))]);
           ("systemd", Object [("units", Array (map encode_Unit (igntypes.Systemd_Units c)))]) ].

(** The value of a key; of several members with one key the last wins. *)
Fixpoint member (k : string) (ms : list (string * value)) : option value :=
  match ms with
  | [] => None
  | (k', v) :: rest =>
      match member k rest with
      | Some w => Some w
      | None => if String.eqb k k' then Some v else None
      end
  end.

(** Decoding the value of key [k] with [dec]; an absent key and a null
    leave the destination [dest] as it is.  [None] is a type mismatch. *)
Definition field {A} (dec : value -> option A) (dest : A) (k : string)
    (ms : list (string * value)) : option A :=
  match member k ms with
  | None | Some Null => Some dest
  | Some v => dec v
  end.

Definition dec_str (v : value) : option string :=
  match v with Str s => Some s | _ => None end.
Definition dec_int (v : value) : option Z :=
  match v with Number n => Some n | _ => None end.
Definition dec_bool (v : value) : option bool :=
  match v with Bool b => Some b | _ => None end.
Definition dec_array {A} (dec : value -> option A) (v : value)
  : option (list A) :=
  match v with Array vs => mapM dec vs | _ => None end.
Definition dec_object {A} (dec : list (string * value) -> option A)
    (v : value) : option A :=
  match v with Object ms => dec ms | _ => None end.

Definition dec_source (s : string) : option string :=
  if String.eqb s "" then Some "" else strip_prefix "data:," s.

Definition decode_File : value -> option igntypes.File :=
  dec_object (fun ms =>
    path ← field dec_str "" "path" ms;
    mode ← field dec_int 0%Z "mode" ms;
    source ← field (dec_object (field dec_str "" "source")) "" "contents" ms;
    contents ← dec_source source;
    Some {| igntypes.Path := path; igntypes.Mode := mode;
            igntypes.Contents := list_byte_of_string contents |}).

Definition decode_Unit : value -> option igntypes.Unit :=
  dec_object (fun ms =>
    name ← field dec_str "" "name" ms;
    contents ← field dec_str "" "contents" ms;
    enabled ← field (fun v => Some <$> dec_bool v) None "enabled" ms;
    Some {| igntypes.u_Name := name; igntypes.u_Contents := contents;
            igntypes.u_Enabled := enabled |}).

Definition decode_PasswdUser : value -> option igntypes.PasswdUser :=
  dec_object (fun ms =>
    name ← field dec_str "" "name" ms;
    keys ← field (dec_array dec_str) [] "sshAuthorizedKeys" ms;
    Some {| igntypes.pu_Name := name; igntypes.SSHAuthorizedKeys := keys |}).

Definition decode_Config (dest : igntypes.Config) (v : value)
  : option igntypes.Config :=
  match v with
  | Null => Some dest
  | Object ms =>
      version ← field (dec_object (field dec_str (igntypes.Ignition_Version dest) "version"))
                  (igntypes.Ignition_Version dest) "ignition" ms;
      users ← field (dec_object (field (dec_array decode_PasswdUser)
                                   (igntypes.Passwd_Users dest) "users"))
                (igntypes.Passwd_Users dest) "passwd" ms;
      files ← field (dec_object (field (dec_array decode_File)
                                   (igntypes.Storage_Files dest) "files"))
                (igntypes.Storage_Files dest) "storage" ms;
      units ← field (dec_object (field (dec_array decode_Unit)
                                   (igntypes.Systemd_Units dest) "units"))
                (igntypes.Systemd_Units dest) "systemd" ms;
      Some {| igntypes.Ignition_Version := version;
              igntypes.Storage_Files := files;
              igntypes.Systemd_Units := units;
              igntypes.Passwd_Users := users |}
  | _ => None
  end.

Definition Marshal (c : igntypes.Config) : bytes * option error :=
  (list_byte_of_string (print (encode_Config c)), None).

Definition Unmarshal (data : bytes) (dest : igntypes.Config)
  : igntypes.Config * option error :=
  match parse (string_of_list_byte data) with
  | None => (dest, Some (ErrOther "invalid character in JSON text"))
  | Some v =>
      match decode_Config dest v with
      | Some c => (c, None)
      | None => (dest, Some (ErrOther "json: cannot unmarshal into Go value of type types.Config"))
      end
  end.

End codec.

(** ** Concrete collaborators, for running the code on inputs *)

Module fixture.
Import asset bootstrap.

(** [filepath.Join] on elements that need no cleaning: the non-empty
    elements, separated by a slash. *)
Definition Join (elems : list string) : string :=
  String.concat "/" (filter (fun e => e <> "") elems).

(** The DNS address is derived from the service network; an install
    configuration without one is an error. *)
Definition service_dns_ip (c : types.InstallConfig) : string * option error :=
  match types.IP (types.ServiceCIDR (types.ic_Networking c)) with
  | [] => ("", Some (ErrOther "invalid service CIDR"))
  | _ => ("10.3.0.10", None)
  end.

(** The largest slice of strings [make] accepts on a 64-bit platform with
    an address space of 2^48 bytes, a string header taking 16 bytes. *)
Definition max_strings : Z := 2 ^ 44.

(** A [Parents.Get] that panics for a type the view does not hold, as
    a lookup through reflection does. *)
Definition absent_panics (k : AssetKind) : Res Resolved :=
  Panicked "reflect: call of reflect.Value.Elem on zero Value".

(** The ignition file with the given path, mode and content; a text is
    its bytes; the files of an asset are placed under the prefix. *)
Definition file_from_bytes (path : string) (mode : Z) (contents : bytes)
  : igntypes.File :=
  {| igntypes.Path := path; igntypes.Mode := mode;
     igntypes.Contents := contents |}.

Definition file_from_string (path : string) (mode : Z) (contents : string)
  : igntypes.File :=
  file_from_bytes path mode (list_byte_of_string contents).

Definition files_from_asset (pathPrefix : string) (mode : Z) (r : Resolved)
  : list igntypes.File :=
  map (fun f => file_from_bytes (Join [pathPrefix; Filename f]) mode (Data f))
      (ra_Files r).

#[export] Instance externals : Externals := {|
  json_Marshal := codec.Marshal;
  json_Unmarshal := codec.Unmarshal;
  filepath_Join := Join;
  installconfig_ClusterDNSIP := service_dns_ip;
  igntypes_MaxVersion_String := "2.2.0";
  FileFromBytes := file_from_bytes;
  FileFromString := file_from_string;
  FilesFromAsset := files_from_asset;
  makeslice_max_len := max_strings;
  Parents_Get_absent := absent_panics
|}.

(** A template that renders fields of the template data; executed on a
    nil pointer it fails. *)
Definition field_template (name : string)
    (render : bootstrapTemplateData -> string) : Template :=
  {| tmpl_Name := name;
     tmpl_Execute := fun data =>
       match data with
       | Some d => (render d, None)
       | None => ("", Some (ErrOther "nil pointer evaluating template data"))
       end |}.

#[export] Instance content : Content := {|
  BootkubeSystemdContents := "[Unit] bootkube";
  TectonicSystemdContents := "[Unit] tectonic";
  ReportSystemdContents := "[Unit] progress";
  KubeletSystemdContents := "[Unit] kubelet";
  ReportShFileContents := "#!/bin/bash report";
  TectonicShFileContents := "#!/bin/bash tectonic";
  BootkubeShFileTemplate :=
    field_template "bootkube.sh"
      (fun d => "release=" +:+ ReleaseImage d +:+ " etcd=" +:+ EtcdCluster d);
  BootkubeConfigOverrides :=
    [ field_template "kube-apiserver-config-overrides.yaml"
        (fun d => "etcd: " +:+ EtcdCluster d) ];
  PodCheckpointerBootkubeManifests :=
    {[ "checkpointer-role.yaml" := "kind: Role" ]};
  KubeProxyBootkubeManifests :=
    <[ "kube-proxy-role-binding.yaml" := "kind: RoleBinding" ]>
      {[ "kube-proxy-daemonset.yaml" := "kind: DaemonSet" ]};
  KubeDNSBootkubeManifests := ∅;
  BootkubeKubeDNSService :=
    field_template "kube-dns-svc.yaml"
      (fun d => "clusterIP: " +:+ ClusterDNSIP d)
|}.

(** Two process environments: one without the override variable, one
    that sets it. *)
Definition env_plain : string -> option string := fun _ => None.
Definition env_override : string -> option string :=
  fun k => if String.eqb k releaseImageOverrideVar
           then Some "example.com/release:custom" else None.

(** Two iteration orders for maps: the entries as listed by
    [map_to_list], and the same entries backwards. *)
Definition order_forward (_ : RangeSite) (m : gmap string string) :=
  map_to_list m.
Definition order_backward (_ : RangeSite) (m : gmap string string) :=
  reverse (map_to_list m).

Definition rt_plain : Runtime :=
  {| os_LookupEnv := env_plain; map_range := order_forward |}.
Definition rt_override : Runtime :=
  {| os_LookupEnv := env_override; map_range := order_forward |}.
Definition rt_backward : Runtime :=
  {| os_LookupEnv := env_plain; map_range := order_backward |}.

(** An environment that sets some other variable and not the override. *)
Definition env_noise : string -> option string :=
  fun k => if String.eqb k "HOME" then Some "/root" else None.
Definition rt_noise : Runtime :=
  {| os_LookupEnv := env_noise; map_range := order_forward |}.

Definition pool (name : string) (replicas : option Z) : types.MachinePool :=
  {| types.mp_Name := name; types.mp_Replicas := replicas |}.

Definition install_config (machines : list types.MachinePool)
  : types.InstallConfig :=
  {| types.ObjectMeta_Name := "demo";
     types.ClusterID := "0000";
     types.ic_Admin := {| types.Email := "admin@example.com";
                          types.Password := "secret";
                          types.SSHKey := "ssh-rsa AAAA" |};
     types.BaseDomain := "example.com";
     types.ic_Networking :=
       {| types.Type_ := "OpenshiftSDN";
          types.ServiceCIDR :=
            {| types.IP := [Byte.x0a; Byte.x03; Byte.x00; Byte.x00];
               types.Mask := [Byte.xff; Byte.xff; Byte.x00; Byte.x00] |};
          types.ClusterNetworks := [];
          types.PodCIDR := None |};
     types.Machines := machines;
     types.ic_Platform := {| types.AWS := None; types.Libvirt := Some "qemu";
                             types.OpenStack := None |};
     types.PullSecret := "{}" |}.

(** A resolved instance for every asset type: one file named after the
    type, and for the install configuration asset a cluster with three
    masters. *)
Definition resolved (name : string) : Resolved :=
  {| ra_Files := [ {| Filename := name; Data := list_byte_of_string name |} ];
     ra_Cert := list_byte_of_string ("cert of " +:+ name);
     ra_Config := install_config [pool "worker" (Some 2%Z); pool "master" (Some 3%Z)] |}.

Definition parents : Parents := fun k =>
  Some (resolved
          match k with
          | installconfig_InstallConfig => "install-config.yml"
          | kubeconfig_Admin => "auth/kubeconfig"
          | kubeconfig_Kubelet => "auth/kubeconfig-kubelet"
          | manifests_Manifests => "manifests/cluster.yaml"
          | manifests_Tectonic => "tectonic/cluster.yaml"
          | _ => "tls/cert.crt"
          end).

(** Fetchers: a store with no artifact, a store that cannot be read, and
    a store holding the given bytes under the bootstrap file name. *)
Definition fetcher_missing : FileFetcher :=
  {| FetchByName := fun name => (None, Some (ErrNotExist name)) |}.
Definition fetcher_broken : FileFetcher :=
  {| FetchByName := fun name => (None, Some (ErrOther "permission denied")) |}.
Definition fetcher_holding (text : string) : FileFetcher :=
  {| FetchByName := fun name =>
       (Some {| Filename := name; Data := list_byte_of_string text |}, None) |}.

(** Stored texts: a JSON document that declares the given ignition
    version, the configuration it decodes to, and a text that is not JSON. *)
Definition stored_version (version : string) : string :=
  json.print
    (json.Object [("ignition", json.Object [("version", json.Str version)])]).

Definition config_of_version (version : string) : igntypes.Config :=
  {| igntypes.Ignition_Version := version;
     igntypes.Storage_Files := [];
     igntypes.Systemd_Units := [];
     igntypes.Passwd_Users := [] |}.

Definition stored_garbled : string := "bootstrap".

(** A receiver that holds an artifact from an earlier load. *)
Definition loaded_before : Bootstrap :=
  {| Config := Some (config_of_version "2.2.0");
     File := Some {| Filename := bootstrapIgnFilename;
                     Data := list_byte_of_string (stored_version "2.2.0") |} |}.

(** The resolved instance [parents] holds for each asset type. *)
Definition parent_of (k : AssetKind) : Resolved :=
  resolved
    match k with
    | installconfig_InstallConfig => "install-config.yml"
    | kubeconfig_Admin => "auth/kubeconfig"
    | kubeconfig_Kubelet => "auth/kubeconfig-kubelet"
    | manifests_Manifests => "manifests/cluster.yaml"
    | manifests_Tectonic => "tectonic/cluster.yaml"
    | _ => "tls/cert.crt"
    end.

(** The first file of the kubelet kubeconfig of [parents]. *)
Definition kubelet_file : asset.File :=
  {| Filename := "auth/kubeconfig-kubelet";
     Data := list_byte_of_string "auth/kubeconfig-kubelet" |}.

(** The template data of a cluster named demo with the given etcd cluster
    string and release image; that of the cluster of [parents], with its
    three masters. *)
Definition template_record (etcdCluster releaseImage : string)
  : bootstrapTemplateData :=
  {| BootkubeImage := "quay.io/coreos/bootkube:v0.10.0";
     ClusterDNSIP := "10.3.0.10";
     EtcdCertSignerImage :=
       "quay.io/coreos/kube-etcd-signer-server:678cc8e6841e2121ebfdb6e2db568fce290b67d6";
     EtcdCluster := etcdCluster;
     EtcdctlImage := "quay.io/coreos/etcd:v3.2.14";
     ReleaseImage := releaseImage |}.

Definition three_masters : string :=
  "https://demo-etcd-0.example.com:2379,https://demo-etcd-1.example.com:2379,https://demo-etcd-2.example.com:2379".

Definition template_data (releaseImage : string)
  : option bootstrapTemplateData :=
  Some (template_record three_masters releaseImage).

(** The view [parents] with the given install configuration, with one
    asset type absent, and with a kubelet kubeconfig that has no file. *)
Definition parents_of (c : types.InstallConfig) : Parents := fun k =>
  Some {| ra_Files := ra_Files (parent_of k);
          ra_Cert := ra_Cert (parent_of k);
          ra_Config := c |}.

Definition parents_without (absent : AssetKind) : Parents := fun k =>
  if bool_decide (k = absent) then None else parents k.

Definition kubelet_without_file : Resolved :=
  {| ra_Files := [];
     ra_Cert := [];
     ra_Config := ra_Config (parent_of kubeconfig_Kubelet) |}.

Definition parents_kubelet_without_file : Parents := fun k =>
  if bool_decide (k = kubeconfig_Kubelet) then Some kubelet_without_file
  else parents k.

(** An install configuration whose service network has no address. *)
Definition install_config_without_cidr : types.InstallConfig :=
  {| types.ObjectMeta_Name := "demo";
     types.ClusterID := "0000";
     types.ic_Admin := {| types.Email := "admin@example.com";
                          types.Password := "secret";
                          types.SSHKey := "ssh-rsa AAAA" |};
     types.BaseDomain := "example.com";
     types.ic_Networking :=
       {| types.Type_ := "OpenshiftSDN";
          types.ServiceCIDR := {| types.IP := []; types.Mask := [] |};
          types.ClusterNetworks := [];
          types.PodCIDR := None |};
     types.Machines := [];
     types.ic_Platform := {| types.AWS := None; types.Libvirt := None;
                             types.OpenStack := None |};
     types.PullSecret := "{}" |}.

(** Collaborators whose [json.Marshal] fails. *)
Definition externals_failing_marshal : Externals := {|
  json_Marshal := fun _ => ([], Some (ErrOther "json: unsupported value"));
  json_Unmarshal := codec.Unmarshal;
  filepath_Join := Join;
  installconfig_ClusterDNSIP := service_dns_ip;
  igntypes_MaxVersion_String := "2.2.0";
  FileFromBytes := file_from_bytes;
  FileFromString := file_from_string;
  FilesFromAsset := files_from_asset;
  makeslice_max_len := max_strings;
  Parents_Get_absent := absent_panics
|}.

(** A template that fails on every data. *)
Definition failing_template (name : string) : Template :=
  {| tmpl_Name := name;
     tmpl_Execute := fun _ => ("", Some (ErrOther "template: no such field")) |}.

(** The content with a bootkube script that fails, and with a second
    configuration override that fails. *)
Definition content_failing_script : Content := {|
  BootkubeSystemdContents := "[Unit] bootkube";
  TectonicSystemdContents := "[Unit] tectonic";
  ReportSystemdContents := "[Unit] progress";
  KubeletSystemdContents := "[Unit] kubelet";
  ReportShFileContents := "#!/bin/bash report";
  TectonicShFileContents := "#!/bin/bash tectonic";
  BootkubeShFileTemplate := failing_template "bootkube.sh";
  BootkubeConfigOverrides := [];
  PodCheckpointerBootkubeManifests := ∅;
  KubeProxyBootkubeManifests := ∅;
  KubeDNSBootkubeManifests := ∅;
  BootkubeKubeDNSService :=
    field_template "kube-dns-svc.yaml" (fun d => ClusterDNSIP d)
|}.

Definition content_failing_override : Content := {|
  BootkubeSystemdContents := "[Unit] bootkube";
  TectonicSystemdContents := "[Unit] tectonic";
  ReportSystemdContents := "[Unit] progress";
  KubeletSystemdContents := "[Unit] kubelet";
  ReportShFileContents := "#!/bin/bash report";
  TectonicShFileContents := "#!/bin/bash tectonic";
  BootkubeShFileTemplate :=
    field_template "bootkube.sh" (fun d => ReleaseImage d);
  BootkubeConfigOverrides :=
    [ field_template "kube-apiserver-config-overrides.yaml"
        (fun d => EtcdCluster d);
      failing_template "kube-scheduler-config-overrides.yaml";
      field_template "kube-controller-manager-config-overrides.yaml"
        (fun d => ClusterDNSIP d) ];
  PodCheckpointerBootkubeManifests := ∅;
  KubeProxyBootkubeManifests := ∅;
  KubeDNSBootkubeManifests := ∅;
  BootkubeKubeDNSService :=
    field_template "kube-dns-svc.yaml" (fun d => ClusterDNSIP d)
|}.

(** A state of [Generate] in which [a.Config] was just assigned. *)
Definition started : GenSt :=
  {| recv := {| Config := Some (config_of_version "2.2.0"); File := None |};
     requested := [installconfig_InstallConfig] |}.

(** A store that holds the given file under every name. *)
Definition fetcher_of (file : option asset.File) : FileFetcher :=
  {| FetchByName := fun _ => (file, None) |}.

End fixture.

(** * Properties *)

(** ** The install configuration *)

Section MasterCount.
Import types.

Lemma MasterCount_loop_skip (m : MachinePool) (rest : list MachinePool) :
  ~ decides m -> MasterCount_loop (m :: rest) = MasterCount_loop rest.
Proof.
  intros Hm. simpl.
  destruct (String.eqb (mp_Name m) "master") eqn:Hname; [|reflexivity].
  destruct (mp_Replicas m) as [r|] eqn:Hrep; [|reflexivity].
  exfalso. apply Hm. split; [by apply String.eqb_eq | by rewrite Hrep].
Qed.

Lemma MasterCount_loop_none (ms : list MachinePool) :
  (forall m, m ∈ ms -> ~ types.decides m) -> MasterCount_loop ms = None.
Proof.
  induction ms as [|m rest IH]; intros Hall; [reflexivity|].
  rewrite MasterCount_loop_skip by (apply Hall; left).
  apply IH. intros m' Hin. apply Hall. by right.
Qed.

Lemma MasterCount_loop_first (pre post : list MachinePool)
    (m : MachinePool) (r : Z) :
  (forall m', m' ∈ pre -> ~ types.decides m') ->
  mp_Name m = "master" -> mp_Replicas m = Some r ->
  MasterCount_loop (pre ++ m :: post) = Some r.
Proof.
  intros Hpre Hname Hrep.
  induction pre as [|p pre IH]; simpl app.
  - simpl. by rewrite Hname, Hrep.
  - rewrite MasterCount_loop_skip by (apply Hpre; left).
    apply IH. intros m' Hin. apply Hpre. by right.
Qed.

End MasterCount.

(** C1, as the code has it: [MasterCount] looks for the pool named "master"
    (not "primary").  It returns 1 when no pool named "master" with an
    explicit replica value exists, and otherwise the replica value of the
    first such pool in the list. *)
Theorem MasterCount_master_pool (c : types.InstallConfig) :
  ((forall m, m ∈ types.Machines c -> ~ types.decides m) ->
   types.MasterCount c = 1%Z)
  /\ (forall (pre : list types.MachinePool) m post r,
        types.Machines c = (pre ++ m :: post)%list ->
        (forall m', m' ∈ pre -> ~ types.decides m') ->
        types.mp_Name m = "master" -> types.mp_Replicas m = Some r ->
        types.MasterCount c = r).
Proof.
  unfold types.MasterCount. split.
  - intros Hall. by rewrite MasterCount_loop_none.
  - intros pre m post r Hms Hpre Hname Hrep.
    by rewrite Hms, (MasterCount_loop_first pre post m r).
Qed.

(** A configuration without a master pool counts one master; one with a
    worker pool and then a master pool of three counts three. *)
Lemma MasterCount_master_pool_witness :
  types.MasterCount (fixture.install_config [fixture.pool "worker" (Some 2%Z)]) = 1%Z
  /\ types.MasterCount
       (fixture.install_config
          [fixture.pool "worker" (Some 2%Z); fixture.pool "master" (Some 3%Z)]) = 3%Z.
Proof.
  split.
  - apply (proj1 (MasterCount_master_pool
                    (fixture.install_config [fixture.pool "worker" (Some 2%Z)]))).
    intros m Hin [Hname _].
    apply list_elem_of_singleton in Hin. subst m. discriminate Hname.
  - apply (proj2 (MasterCount_master_pool
                    (fixture.install_config
                       [fixture.pool "worker" (Some 2%Z);
                        fixture.pool "master" (Some 3%Z)]))
             [fixture.pool "worker" (Some 2%Z)]
             (fixture.pool "master" (Some 3%Z)) [] 3%Z);
      [reflexivity | | reflexivity | reflexivity].
    intros m Hin [Hname _].
    apply list_elem_of_singleton in Hin. subst m. discriminate Hname.
Defined.

(** C1 as stated fails: a pool named "primary" with three replicas is
    ignored (the count is 1, not 3), and with no pool named "primary" at all
    the count need not be 1 (a "master" pool of three gives 3). *)
Lemma MasterCount_primary_counterexample :
  let primary := fixture.install_config [fixture.pool "primary" (Some 3%Z)] in
  let master := fixture.install_config [fixture.pool "master" (Some 3%Z)] in
  (fixture.pool "primary" (Some 3%Z) ∈ types.Machines primary
   /\ types.MasterCount primary = 1%Z
   /\ types.MasterCount primary <> 3%Z)
  /\ ((forall m, m ∈ types.Machines master -> types.mp_Name m <> "primary")
      /\ types.MasterCount master = 3%Z
      /\ types.MasterCount master <> 1%Z).
Proof.
  simpl. repeat split; try (left; fail); try discriminate.
  intros m Hin Hname. apply list_elem_of_singleton in Hin. subst m.
  discriminate Hname.
Qed.

(** ** The platform name *)

(** C10: [Platform.Name] is defined on every receiver, nil included.  It is
    empty for a nil receiver and when no platform field is set; otherwise it
    names the first field that is set, in the order AWS, Libvirt, OpenStack,
    whatever the later fields hold. *)
Theorem Platform_Name_priority (p : option types.Platform) :
  (p = None -> types.Name p = "")
  /\ (forall q, p = Some q ->
        (types.AWS q <> None -> types.Name p = "aws")
        /\ (types.AWS q = None -> types.Libvirt q <> None ->
            types.Name p = "libvirt")
        /\ (types.AWS q = None -> types.Libvirt q = None ->
            types.OpenStack q <> None -> types.Name p = "openstack")
        /\ (types.AWS q = None -> types.Libvirt q = None ->
            types.OpenStack q = None -> types.Name p = "")).
Proof.
  split; [intros ->; reflexivity|].
  intros q ->. unfold types.Name.
  destruct (types.AWS q) as [a|], (types.Libvirt q) as [l|],
    (types.OpenStack q) as [o|]; simpl; repeat split; intros; congruence.
Qed.

(** With all three fields set the name is "aws"; with Libvirt and OpenStack
    set it is "libvirt"; the nil receiver has the empty name. *)
Lemma Platform_Name_priority_witness :
  types.Name None = ""
  /\ types.Name (Some {| types.AWS := Some "a"; types.Libvirt := Some "l";
                         types.OpenStack := Some "o" |}) = "aws"
  /\ types.Name (Some {| types.AWS := None; types.Libvirt := Some "l";
                         types.OpenStack := Some "o" |}) = "libvirt".
Proof.
  split; [|split].
  - apply (proj1 (Platform_Name_priority None)). reflexivity.
  - apply (proj1 (proj2 (Platform_Name_priority _) _ eq_refl)). discriminate.
  - apply (proj1 (proj2 (proj2 (Platform_Name_priority _) _ eq_refl)));
      [reflexivity | discriminate].
Defined.

(** ** Loading the persisted artifact *)

Section Load.
Import asset bootstrap.
Context {ext : Externals}.

(** The three ways [Load] can end, by what the fetcher and the decoder
    return. *)
Lemma Load_fetch_error (f : FileFetcher) (a : Bootstrap) file (err : error) :
  FetchByName f bootstrapIgnFilename = (file, Some err) ->
  Load f a = (a, Done (false, if os_IsNotExist err then None else Some err)).
Proof.
  intros Hf. unfold Load. rewrite Hf.
  destruct file; by destruct (os_IsNotExist err).
Qed.

Lemma Load_decode_error (f : FileFetcher) (a : Bootstrap) file cfg
    (err : error) :
  FetchByName f bootstrapIgnFilename = (Some file, None) ->
  json_Unmarshal (Data file) Config_zero = (cfg, Some err) ->
  Load f a = (a, Done (false, Some (ErrWrap err "failed to unmarshal"))).
Proof. intros Hf Hu. unfold Load. by rewrite Hf, Hu. Qed.

Lemma Load_decoded (f : FileFetcher) (a : Bootstrap) file cfg :
  FetchByName f bootstrapIgnFilename = (Some file, None) ->
  json_Unmarshal (Data file) Config_zero = (cfg, None) ->
  Load f a = ({| Config := Some cfg; File := Some file |}, Done (true, None)).
Proof. intros Hf Hu. unfold Load. by rewrite Hf, Hu. Qed.

Lemma Load_nil_file (f : FileFetcher) (a : Bootstrap) :
  FetchByName f bootstrapIgnFilename = (None, None) ->
  exists msg, Load f a = (a, Panicked msg).
Proof. intros Hf. unfold Load. rewrite Hf. by eexists. Qed.

(** Every call of [Load] ends in one of these ways. *)
Lemma Load_cases (f : FileFetcher) (a : Bootstrap) :
  (exists file err, FetchByName f bootstrapIgnFilename = (file, Some err))
  \/ FetchByName f bootstrapIgnFilename = (None, None)
  \/ exists file cfg oerr,
       FetchByName f bootstrapIgnFilename = (Some file, None)
       /\ json_Unmarshal (Data file) Config_zero = (cfg, oerr).
Proof.
  destruct (FetchByName f bootstrapIgnFilename) as [[file|] [err|]] eqn:Hf;
    eauto.
  destruct (json_Unmarshal (Data file) Config_zero) as [cfg oerr] eqn:Hu.
  right; right. by exists file, cfg, oerr.
Qed.

(** Case analysis on a call of [Load], rewriting the call by the matching
    outcome lemma. *)
Ltac load_cases f a :=
  let file := fresh "file" in
  let err := fresh "err" in
  let cfg := fresh "cfg" in
  let Hf := fresh "Hf" in
  let Hu := fresh "Hu" in
  let msg := fresh "msg" in
  let Hp := fresh "Hp" in
  destruct (Load_cases f a)
    as [(file & err & Hf) | [Hf | (file & cfg & [err|] & Hf & Hu)]];
  [ rewrite (Load_fetch_error f a file err Hf) in *
  | destruct (Load_nil_file f a Hf) as [msg Hp]; rewrite Hp in *
  | rewrite (Load_decode_error f a file cfg err Hf Hu) in *
  | rewrite (Load_decoded f a file cfg Hf Hu) in * ].

(** C4: [Load] returns [(false, nil)] exactly when the fetcher's error is a
    "does not exist" error; any other fetcher error is returned as it is,
    and a decoding error is returned wrapped, both with [found = false]. *)
Theorem Load_not_found_only_for_missing (f : FileFetcher) (a : Bootstrap) :
  ((Load f a).2 = Done (false, None) <->
   exists err, (FetchByName f bootstrapIgnFilename).2 = Some err
               /\ os_IsNotExist err = true)
  /\ (forall err, (FetchByName f bootstrapIgnFilename).2 = Some err ->
        os_IsNotExist err = false ->
        (Load f a).2 = Done (false, Some err))
  /\ (forall file cfg err,
        FetchByName f bootstrapIgnFilename = (Some file, None) ->
        json_Unmarshal (Data file) Config_zero = (cfg, Some err) ->
        (Load f a).2 = Done (false, Some (ErrWrap err "failed to unmarshal"))).
Proof.
  split; [|split].
  - load_cases f a; rewrite Hf; simpl; split.
    + intros H. exists err. by destruct (os_IsNotExist err).
    + intros (e & [= ->] & ->). reflexivity.
    + discriminate.
    + intros (e & [=] & _).
    + discriminate.
    + intros (e & [=] & _).
    + discriminate.
    + intros (e & [=] & _).
  - intros err Herr Hne.
    destruct (FetchByName f bootstrapIgnFilename) as [file oerr] eqn:Hf.
    simpl in Herr. subst oerr.
    rewrite (Load_fetch_error f a file err Hf). simpl. by rewrite Hne.
  - intros file cfg err Hf Hu. by rewrite (Load_decode_error f a file cfg err).
Qed.

(** C9: a call of [Load] that returns [found = false] leaves the receiver
    as it was. *)
Theorem Load_failure_keeps_state (f : FileFetcher) (a : Bootstrap)
    (err : option error) :
  (Load f a).2 = Done (false, err) -> (Load f a).1 = a.
Proof. load_cases f a; simpl; [done | done | done | discriminate]. Qed.

(** Only a call that returns [found = true] changes the receiver. *)
Lemma Load_unsuccessful_keeps_state (f : FileFetcher) (a : Bootstrap) :
  (forall err, (Load f a).2 <> Done (true, err)) -> (Load f a).1 = a.
Proof.
  load_cases f a; simpl; try done.
  intros H. by destruct (H None).
Qed.

(** C6: when [Load] returns [found = true], the receiver holds the fetched
    file and the configuration decoded from that file's bytes, and nothing
    else was consulted. *)
Theorem Load_found_state (f : FileFetcher) (a a' : Bootstrap)
    (err : option error) :
  Load f a = (a', Done (true, err)) ->
  exists file,
    FetchByName f bootstrapIgnFilename = (Some file, None)
    /\ (json_Unmarshal (Data file) Config_zero).2 = None
    /\ Config a' = Some (json_Unmarshal (Data file) Config_zero).1
    /\ File a' = Some file
    /\ err = None.
Proof.
  load_cases f a; intros H; try discriminate H.
  injection H as <- <-. exists file. by rewrite Hu.
Qed.

(** C5, as the code has it: [Load] does not look at the version the stored
    content declares.  Whatever configuration the bytes decode to, [Load]
    returns [found = true] with it; only content that fails to decode is
    rejected. *)
Theorem Load_accepts_any_version (f : FileFetcher) (a : Bootstrap) file cfg :
  FetchByName f bootstrapIgnFilename = (Some file, None) ->
  json_Unmarshal (Data file) Config_zero = (cfg, None) ->
  (Load f a).2 = Done (true, None)
  /\ Config (Load f a).1 = Some cfg
  /\ igntypes.Ignition_Version <$> Config (Load f a).1
     = Some (igntypes.Ignition_Version cfg).
Proof. intros Hf Hu. by rewrite (Load_decoded f a file cfg). Qed.

End Load.

Section LoadExamples.
Import asset bootstrap fixture.

(** A store without the artifact reports "not found"; an unreadable store
    and undecodable content are errors. *)
Lemma Load_not_found_only_for_missing_witness :
  (Load fetcher_missing Bootstrap_zero).2 = Done (false, None)
  /\ (Load fetcher_broken Bootstrap_zero).2
     = Done (false, Some (ErrOther "permission denied"))
  /\ (Load (fetcher_holding stored_garbled) Bootstrap_zero).2
     = Done (false, Some (ErrWrap (ErrOther "invalid character in JSON text")
                            "failed to unmarshal")).
Proof.
  split; [|split].
  - apply (proj1 (Load_not_found_only_for_missing fetcher_missing Bootstrap_zero)).
    exists (ErrNotExist bootstrapIgnFilename). split; reflexivity.
  - apply (proj1 (proj2 (Load_not_found_only_for_missing fetcher_broken
                           Bootstrap_zero))); reflexivity.
  - apply (proj2 (proj2 (Load_not_found_only_for_missing
                           (fetcher_holding stored_garbled) Bootstrap_zero))
             {| Filename := bootstrapIgnFilename;
                Data := list_byte_of_string stored_garbled |}
             Config_zero); reflexivity.
Defined.

(** A failing load on a receiver that already holds an artifact. *)
Lemma Load_failure_keeps_state_witness :
  (Load fetcher_broken loaded_before).1 = loaded_before.
Proof.
  apply (Load_failure_keeps_state fetcher_broken loaded_before
           (Some (ErrOther "permission denied"))).
  reflexivity.
Defined.

(** Loading a stored configuration of the supported version. *)
Lemma Load_found_state_witness :
  exists file,
    FetchByName (fetcher_holding (stored_version "2.2.0")) bootstrapIgnFilename
    = (Some file, None)
    /\ (json_Unmarshal (Data file) Config_zero).2 = None
    /\ Config (Load (fetcher_holding (stored_version "2.2.0")) Bootstrap_zero).1
       = Some (json_Unmarshal (Data file) Config_zero).1
    /\ File (Load (fetcher_holding (stored_version "2.2.0")) Bootstrap_zero).1
       = Some file
    /\ @None error = None.
Proof.
  apply (Load_found_state (fetcher_holding (stored_version "2.2.0"))
           Bootstrap_zero).
  vm_compute. reflexivity.
Defined.

(** Stored content that declares version 3.0.0 is loaded as found. *)
Lemma Load_accepts_any_version_witness :
  (Load (fetcher_holding (stored_version "3.0.0")) Bootstrap_zero).2
  = Done (true, None)
  /\ Config (Load (fetcher_holding (stored_version "3.0.0")) Bootstrap_zero).1
     = Some (config_of_version "3.0.0")
  /\ igntypes.Ignition_Version
       <$> Config (Load (fetcher_holding (stored_version "3.0.0"))
                     Bootstrap_zero).1
     = Some "3.0.0".
Proof.
  apply (Load_accepts_any_version (fetcher_holding (stored_version "3.0.0"))
           Bootstrap_zero
           {| Filename := bootstrapIgnFilename;
              Data := list_byte_of_string (stored_version "3.0.0") |}
           (config_of_version "3.0.0")).
  - reflexivity.
  - vm_compute. reflexivity.
Defined.

(** C5 as stated fails: the supported version is 2.2.0, the stored content
    declares 3.0.0, and [Load] returns [found = true] without error, with a
    configuration of version 3.0.0. *)
Lemma Load_version_counterexample :
  igntypes_MaxVersion_String = "2.2.0"
  /\ json.parse (stored_version "3.0.0")
     = Some (json.Object
               [("ignition", json.Object [("version", json.Str "3.0.0")])])
  /\ Load (fetcher_holding (stored_version "3.0.0")) Bootstrap_zero
     = ({| Config := Some (config_of_version "3.0.0");
           File := Some {| Filename := bootstrapIgnFilename;
                           Data := list_byte_of_string (stored_version "3.0.0") |} |},
        Done (true, None))
  /\ igntypes.Ignition_Version (config_of_version "3.0.0")
     <> igntypes_MaxVersion_String.
Proof.
  split; [reflexivity|]. split; [vm_compute; reflexivity|].
  split; [vm_compute; reflexivity|]. discriminate.
Qed.

End LoadExamples.

(** ** Reasoning about calls in the monad *)

Section Triples.
Context {S : Type}.
Implicit Types P : S -> Prop.

Lemma triple_bind {A B} P (m : M S A) (k : A -> M S B) R Q :
  triple P m R ->
  (forall x, triple (R (Done x)) (k x) Q) ->
  (forall msg s, R (Panicked msg) s -> Q (Panicked msg) s) ->
  triple P (m ≫= k) Q.
Proof.
  unfold triple, mbind, M_bind, bind. intros Hm Hk Hp s Hs.
  specialize (Hm s Hs). destruct (m s) as [s' [x|msg]]; simpl in *.
  - by apply Hk.
  - by apply Hp.
Qed.

Lemma triple_bind_pres {A B} P (m : M S A) (k : A -> M S B) Q :
  pres P m ->
  (forall x, triple P (k x) Q) ->
  (forall msg s, P s -> Q (Panicked msg) s) ->
  triple P (m ≫= k) Q.
Proof. intros Hm Hk Hp. by apply (triple_bind P m k (fun _ => P)). Qed.

Lemma pres_ret {A} P (x : A) : pres P (ret x).
Proof. by intros s Hs. Qed.

Lemma pres_panic {A} P msg : pres P (@panic S A msg).
Proof. by intros s Hs. Qed.

Lemma pres_bind {A B} P (m : M S A) (k : A -> M S B) :
  pres P m -> (forall x, pres P (k x)) -> pres P (m ≫= k).
Proof. intros Hm Hk. by apply triple_bind_pres. Qed.

Lemma pres_for_range {A} P (xs : list A) (body : A -> M S unit) :
  (forall x, x ∈ xs -> pres P (body x)) -> pres P (for_range xs body).
Proof.
  induction xs as [|x xs IH]; intros Hbody; simpl.
  - apply pres_ret.
  - apply pres_bind; [apply Hbody; left|].
    intros _. apply IH. intros y Hy. apply Hbody. by right.
Qed.

End Triples.

Create HintDb gen.
#[local] Hint Resolve pres_ret pres_panic : gen.

(** Membership in a concrete list of asset types, by computation. *)
Ltac declared := apply (bool_decide_unpack _); by vm_compute.

(** ** The steps of [Generate] *)

Section GenerateSteps.
Import asset bootstrap.
Context {content : Content} {ext : Externals}.

(** Steps that do not touch the state keep every property of it. *)
Lemma pres_Config_deref P : pres P Config_deref.
Proof.
  intros s Hs. unfold Config_deref. by destruct (Config (recv s)).
Qed.

Lemma pres_applyTemplateData {S} (P : S -> Prop) t td :
  pres P (applyTemplateData t td).
Proof.
  unfold applyTemplateData.
  destruct (tmpl_Execute t td) as [buf [err|]]; auto with gen.
Qed.

Lemma pres_getTemplateData {S} (P : S -> Prop) rt c :
  pres P (getTemplateData rt c).
Proof.
  unfold getTemplateData.
  destruct (installconfig_ClusterDNSIP c) as [ip [err|]]; auto with gen.
  destruct ((types.MasterCount c <? 0) || (makeslice_max_len <? _))%Z;
    auto with gen.
Qed.

(** [Config_deref] returns what the receiver's pointer holds. *)
Lemma triple_Config_deref P :
  triple P Config_deref
    (fun r s => P s /\ forall c, r = Done c -> Config (recv s) = Some c).
Proof.
  intros s Hs. unfold Config_deref.
  destruct (Config (recv s)) as [c|] eqn:Hc; simpl; split; try done.
  intros c' [= <-]. done.
Qed.

(** A property of the state that assignments to [a.Config] keep, and that
    requests for declared dependencies keep. *)
Section Invariant.
Variable P : GenSt -> Prop.
Hypothesis P_Config_assign : forall c, pres P (Config_assign c).
Hypothesis P_Get :
  forall dependencies k, k ∈ Dependencies -> pres P (Parents_Get dependencies k).

Lemma pres_append_Storage_Files fs :
  pres P fs -> pres P (append_Storage_Files fs).
Proof.
  intros Hfs. unfold append_Storage_Files.
  apply pres_bind; [apply pres_Config_deref|]. intros c.
  apply pres_bind; [done|]. intros new. apply P_Config_assign.
Qed.

Lemma pres_append_Systemd_Units us : pres P (append_Systemd_Units us).
Proof.
  unfold append_Systemd_Units.
  apply pres_bind; [apply pres_Config_deref|]. intros c. apply P_Config_assign.
Qed.

Lemma pres_append_Passwd_Users us : pres P (append_Passwd_Users us).
Proof.
  unfold append_Passwd_Users.
  apply pres_bind; [apply pres_Config_deref|]. intros c. apply P_Config_assign.
Qed.

(** One proof step: split a sequence, or close a step by a lemma above. *)
Ltac keep :=
  repeat first
    [ apply pres_append_Storage_Files
    | apply pres_append_Systemd_Units
    | apply pres_append_Passwd_Users
    | apply pres_applyTemplateData
    | apply pres_ret
    | apply pres_panic
    | apply P_Get; declared
    | apply pres_for_range; intros ? ?
    | apply pres_bind; [|intros ?] ].

Lemma pres_addBootstrapFiles dependencies :
  pres P (addBootstrapFiles dependencies).
Proof.
  unfold addBootstrapFiles. keep.
  match goal with |- context [ra_Files ?r] => destruct (ra_Files r) end; keep.
Qed.

Lemma pres_addBootkubeFiles dependencies td :
  pres P (addBootkubeFiles dependencies td).
Proof. unfold addBootkubeFiles. keep. Qed.

Lemma pres_addManifests rt site dir m : pres P (addManifests rt site dir m).
Proof. unfold addManifests. keep. Qed.

Lemma pres_addTemporaryBootkubeFiles rt td :
  pres P (addTemporaryBootkubeFiles rt td).
Proof.
  unfold addTemporaryBootkubeFiles.
  repeat (apply pres_bind; [apply pres_addManifests|intros ?]). keep.
Qed.

Lemma pres_addTectonicFiles dependencies :
  pres P (addTectonicFiles dependencies).
Proof. unfold addTectonicFiles. keep. Qed.

Lemma tlsCertAssets_declared k : k ∈ tlsCertAssets -> k ∈ Dependencies.
Proof.
  intros Hk.
  assert (Hall : Forall (fun k => k ∈ Dependencies) tlsCertAssets)
    by declared.
  by apply (proj1 (Forall_forall _ _) Hall).
Qed.

Lemma pres_addTLSCertFiles dependencies :
  pres P (addTLSCertFiles dependencies).
Proof.
  unfold addTLSCertFiles.
  apply pres_bind; [|intros _; keep].
  apply pres_for_range. intros k Hk.
  apply pres_bind; [by apply P_Get, tlsCertAssets_declared|]. intros r. keep.
Qed.

(** The skeleton of [Generate]: every way out of it keeps [P], except that
    on success the last step assigns [a.File] the file named
    [bootstrap.ign] holding the marshalled [a.Config]. *)
Lemma Generate_triple rt dependencies (Q : Res (option error) -> GenSt -> Prop) :
  (forall err s, P s -> Q (Done (Some err)) s) ->
  (forall msg s, P s -> Q (Panicked msg) s) ->
  (forall cfg data s,
     P s -> Config (recv s) = Some cfg -> json_Marshal cfg = (data, None) ->
     Q (Done None)
       (File_assign {| Filename := bootstrapIgnFilename; Data := data |} s).1) ->
  triple P (Generate rt dependencies) Q.
Proof.
  intros Qerr Qpanic Qok. unfold Generate.
  apply triple_bind_pres; [apply P_Get; declared| |done].
  intros installConfig.
  apply triple_bind_pres; [apply pres_getTemplateData| |done].
  intros [td [err|]].
  { intros s Hs. simpl. by apply Qerr. }
  apply triple_bind_pres; [apply P_Config_assign| |done]. intros _.
  apply triple_bind_pres; [apply pres_addBootstrapFiles| |done]. intros _.
  apply triple_bind_pres; [apply pres_addBootkubeFiles| |done]. intros _.
  apply triple_bind_pres; [apply pres_addTemporaryBootkubeFiles| |done].
  intros _.
  apply triple_bind_pres; [apply pres_addTectonicFiles| |done]. intros _.
  apply triple_bind_pres; [apply pres_addTLSCertFiles| |done]. intros _.
  apply triple_bind_pres; [apply pres_append_Systemd_Units| |done]. intros _.
  apply triple_bind_pres; [apply pres_append_Passwd_Users| |done]. intros _.
  eapply triple_bind; [apply triple_Config_deref| |].
  2: { intros msg s [Hs _]. by apply Qpanic. }
  intros config s [Hs Hcfg]. specialize (Hcfg config eq_refl).
  destruct (json_Marshal config) as [data [err|]] eqn:Hdata.
  - simpl. by apply Qerr.
  - by apply (Qok config).
Qed.

End Invariant.

End GenerateSteps.

(** ** Generating the artifact *)

Section Generate.
Import asset bootstrap.
Context {content : Content} {ext : Externals}.

Lemma requests_declared_Get dependencies k :
  k ∈ Dependencies -> pres requests_declared (Parents_Get dependencies k).
Proof.
  intros Hk s Hs. unfold Parents_Get, requests_declared.
  assert (Hlog : (requested s ++ [k])%list ⊆ Dependencies).
  { intros x [Hx | Hx%list_elem_of_singleton]%elem_of_app;
      [by apply Hs | by subst x]. }
  done.
Qed.

Lemma requests_declared_run (m : M GenSt unit) (a : Bootstrap) :
  pres requests_declared m ->
  requested (m {| recv := a; requested := [] |}).1 ⊆ Dependencies.
Proof. intros Hm. apply Hm. intros x Hx. by apply elem_of_nil in Hx. Qed.

(** The declared dependencies are twenty among the asset types: no type
    outside those named in [bootstrap.go] is declared. *)
Lemma other_asset_undeclared (type_name : string) :
  other_asset type_name ∉ Dependencies.
Proof.
  unfold Dependencies. intros Hin.
  repeat (apply elem_of_cons in Hin as [Heq|Hin]; [discriminate Heq|]).
  by apply elem_of_nil in Hin.
Qed.

(** C8: every asset type requested from the parents view during [Generate],
    and during each of its steps that read dependencies, is one of the types
    listed by [Dependencies] (which, by [other_asset_undeclared], not every
    asset type is). *)
Theorem Generate_requests_declared (rt : Runtime) (dependencies : Parents)
    (a : Bootstrap) :
  requested (run_Generate rt dependencies a).1 ⊆ Dependencies
  /\ requested (addBootstrapFiles dependencies
                  {| recv := a; requested := [] |}).1 ⊆ Dependencies
  /\ (forall td,
        requested (addBootkubeFiles dependencies td
                     {| recv := a; requested := [] |}).1 ⊆ Dependencies)
  /\ requested (addTectonicFiles dependencies
                  {| recv := a; requested := [] |}).1 ⊆ Dependencies
  /\ requested (addTLSCertFiles dependencies
                  {| recv := a; requested := [] |}).1 ⊆ Dependencies.
Proof.
  assert (Hcfg : forall c, pres requests_declared (Config_assign c))
    by (by intros c s Hs).
  pose proof requests_declared_Get as Hget.
  repeat split; try intros td.
  - apply (Generate_triple requests_declared Hcfg Hget rt dependencies
             (fun _ => requests_declared)); try done.
    intros x Hx. by apply elem_of_nil in Hx.
  - by apply requests_declared_run, pres_addBootstrapFiles.
  - by apply requests_declared_run, pres_addBootkubeFiles.
  - by apply requests_declared_run, pres_addTectonicFiles.
  - by apply requests_declared_run, pres_addTLSCertFiles.
Qed.

(** The outcome of [Generate] depends on the parents view through the
    declared dependencies only: two views that agree on them give the same
    run. *)
Lemma Parents_Get_agree (deps1 deps2 : Parents) k :
  deps1 k = deps2 k -> Parents_Get deps1 k = Parents_Get deps2 k.
Proof. intros Hk. unfold Parents_Get, Parents_lookup. by rewrite Hk. Qed.

Lemma for_range_ext {S A} (xs : list A) (f g : A -> M S unit) :
  (forall x, x ∈ xs -> f x = g x) -> for_range xs f = for_range xs g.
Proof.
  induction xs as [|x xs IH]; intros Hfg; [reflexivity|]. simpl.
  rewrite (Hfg x) by left. rewrite IH; [reflexivity|].
  intros y Hy. apply Hfg. by right.
Qed.

Lemma Generate_reads_declared_only (rt : Runtime) (deps1 deps2 : Parents)
    (a : Bootstrap) :
  (forall k, k ∈ Dependencies -> deps1 k = deps2 k) ->
  run_Generate rt deps1 a = run_Generate rt deps2 a.
Proof.
  intros Hagree.
  assert (Hget : forall k, k ∈ Dependencies ->
                   Parents_Get deps1 k = Parents_Get deps2 k)
    by (intros k Hk; by apply Parents_Get_agree, Hagree).
  assert (Htls : addTLSCertFiles deps1 = addTLSCertFiles deps2).
  { unfold addTLSCertFiles.
    rewrite (Hget tls_EtcdClientCertKey) by declared.
    rewrite (for_range_ext tlsCertAssets _
               (fun k => asset ← Parents_Get deps2 k;
                         append_Storage_Files
                           (ret (FilesFromAsset rootDir (octal 6 0 0) asset))));
      [reflexivity|].
    intros k Hk. by rewrite Hget by by apply tlsCertAssets_declared. }
  unfold run_Generate, Generate, addBootstrapFiles, addBootkubeFiles,
    addTectonicFiles.
  rewrite Htls.
  rewrite (Hget installconfig_InstallConfig), (Hget kubeconfig_Kubelet),
    (Hget kubeconfig_Admin), (Hget manifests_Manifests),
    (Hget manifests_Tectonic) by declared.
  reflexivity.
Qed.

(** A call of [Generate] that does not succeed leaves [a.File] alone. *)
Lemma Generate_failure_keeps_File rt dependencies (a : Bootstrap) :
  (run_Generate rt dependencies a).2 <> Done None ->
  File (recv (run_Generate rt dependencies a).1) = File a.
Proof.
  apply (Generate_triple (fun s => File (recv s) = File a))
    with (Q := fun r s => r <> Done None -> File (recv s) = File a);
    try done.
  - by intros c s Hs.
  - by intros deps k _ s Hs.
Qed.

Lemma never_succeeded_no_File (a : Bootstrap) :
  never_succeeded a -> File a = None.
Proof.
  induction 1 as [|rt deps a _ IH Hfail|f a _ IH Hfail].
  - reflexivity.
  - by rewrite Generate_failure_keeps_File.
  - by rewrite Load_unsuccessful_keeps_state.
Qed.

(** C7: on a receiver on which neither [Generate] nor [Load] has succeeded,
    [Files] is empty; after a successful [Generate] it is the single file
    [bootstrap.ign] whose bytes are the marshalled generated [Config]. *)
Theorem Files_before_and_after_Generate :
  (forall a, never_succeeded a -> Files a = [])
  /\ (forall rt dependencies a s,
        run_Generate rt dependencies a = (s, Done None) ->
        exists cfg data,
          Config (recv s) = Some cfg
          /\ json_Marshal cfg = (data, None)
          /\ Files (recv s)
             = [ {| Filename := bootstrapIgnFilename; Data := data |} ]).
Proof.
  split.
  - intros a Ha. unfold Files. by rewrite never_succeeded_no_File.
  - intros rt deps a s Hrun.
    assert (H : triple (fun _ => True) (Generate rt deps)
                  (fun r s => r = Done None ->
                     exists cfg data,
                       Config (recv s) = Some cfg
                       /\ json_Marshal cfg = (data, None)
                       /\ Files (recv s)
                          = [ {| Filename := bootstrapIgnFilename;
                                 Data := data |} ])).
    { apply Generate_triple; try done.
      intros cfg data s' _ Hcfg Hdata _. by exists cfg, data. }
    specialize (H {| recv := a; requested := [] |} I).
    unfold run_Generate in Hrun. rewrite Hrun in H. by apply H.
Qed.

End Generate.

(** ** What [Generate] takes from the process *)

Section Surroundings.
Import asset bootstrap.
Context {content : Content} {ext : Externals}.

(** [getTemplateData] looks at the process environment through one
    variable only. *)
Lemma getTemplateData_env {S} (rt1 rt2 : Runtime) c :
  os_LookupEnv rt1 releaseImageOverrideVar
  = os_LookupEnv rt2 releaseImageOverrideVar ->
  @getTemplateData ext S rt1 c = getTemplateData rt2 c.
Proof. intros Henv. unfold getTemplateData. by rewrite Henv. Qed.

(** Appending files that are already computed. *)
Lemma append_Storage_Files_ret (fs : list igntypes.File) (s : GenSt) cfg :
  Config (recv s) = Some cfg ->
  append_Storage_Files (ret fs) s
  = ({| recv :=
          {| Config :=
               Some {| igntypes.Ignition_Version := igntypes.Ignition_Version cfg;
                       igntypes.Storage_Files := igntypes.Storage_Files cfg ++ fs;
                       igntypes.Systemd_Units := igntypes.Systemd_Units cfg;
                       igntypes.Passwd_Users := igntypes.Passwd_Users cfg |};
             File := File (recv s) |};
        requested := requested s |}, Done tt).
Proof.
  intros Hcfg.
  unfold append_Storage_Files, mbind, M_bind, bind, Config_deref.
  by rewrite Hcfg.
Qed.

(** The files added by one loop over a map follow the order in which the
    runtime yields the entries. *)
Lemma addManifests_order (rt : Runtime) site dir m (s : GenSt) cfg :
  Config (recv s) = Some cfg ->
  addManifests rt site dir m s
  = ({| recv :=
          {| Config :=
               Some {| igntypes.Ignition_Version := igntypes.Ignition_Version cfg;
                       igntypes.Storage_Files :=
                         igntypes.Storage_Files cfg
                         ++ manifest_files dir (map_range rt site m);
                       igntypes.Systemd_Units := igntypes.Systemd_Units cfg;
                       igntypes.Passwd_Users := igntypes.Passwd_Users cfg |};
             File := File (recv s) |};
        requested := requested s |}, Done tt).
Proof.
  unfold addManifests, manifest_files.
  revert s cfg. induction (map_range rt site m) as [|entry rest IH];
    intros s cfg Hcfg.
  - simpl. rewrite app_nil_r. destruct s as [[c f] l], cfg. simpl in *.
    by rewrite Hcfg.
  - simpl for_range. unfold mbind, M_bind, bind.
    rewrite (append_Storage_Files_ret _ s cfg Hcfg).
    erewrite IH; [|reflexivity]. simpl. by rewrite <- app_assoc.
Qed.

(** The files added by [addTemporaryBootkubeFiles]: for each of the three
    maps its entries in the order the runtime yielded them, then the DNS
    service file. *)
Lemma addTemporaryBootkubeFiles_files (rt : Runtime) td (s : GenSt) cfg text :
  Config (recv s) = Some cfg ->
  tmpl_Execute BootkubeKubeDNSService td = (text, None) ->
  Config (recv (addTemporaryBootkubeFiles rt td s).1)
  = Some
      {| igntypes.Ignition_Version := igntypes.Ignition_Version cfg;
         igntypes.Storage_Files :=
           igntypes.Storage_Files cfg
           ++ manifest_files
                (filepath_Join [rootDir; "pod-checkpointer-operator-bootstrap"])
                (map_range rt RangePodCheckpointer
                   PodCheckpointerBootkubeManifests)
           ++ manifest_files
                (filepath_Join [rootDir; "kube-proxy-operator-bootstrap"])
                (map_range rt RangeKubeProxy KubeProxyBootkubeManifests)
           ++ manifest_files
                (filepath_Join [rootDir; "kube-dns-operator-bootstrap"])
                (map_range rt RangeKubeDNS KubeDNSBootkubeManifests)
           ++ [ FileFromString
                  (filepath_Join
                     [filepath_Join [rootDir; "kube-dns-operator-bootstrap"];
                      "kube-dns-svc.yaml"])
                  (octal 6 4 4) text ];
         igntypes.Systemd_Units := igntypes.Systemd_Units cfg;
         igntypes.Passwd_Users := igntypes.Passwd_Users cfg |}.
Proof.
  intros Hcfg Hexec. unfold addTemporaryBootkubeFiles, mbind, M_bind, bind.
  erewrite addManifests_order; [|exact Hcfg].
  erewrite addManifests_order; [|reflexivity].
  erewrite addManifests_order; [|reflexivity].
  unfold append_Storage_Files, mbind, M_bind, bind, Config_deref,
    applyTemplateData. simpl. rewrite Hexec. simpl.
  by rewrite <- !app_assoc.
Qed.

Lemma addTemporaryBootkubeFiles_iteration (rt1 rt2 : Runtime) td :
  same_iteration rt1 rt2 ->
  addTemporaryBootkubeFiles rt1 td = addTemporaryBootkubeFiles rt2 td.
Proof.
  intros (H1 & H2 & H3). unfold addTemporaryBootkubeFiles, addManifests.
  by rewrite H1, H2, H3.
Qed.

(** C2, as the code has it: [getTemplateData] reads the variable
    OPENSHIFT_INSTALL_RELEASE_IMAGE_OVERRIDE from the process environment.
    Two runs of [Generate] on the same receiver and dependencies whose
    environments agree on that variable, and which iterate the content maps
    in the same order, end in the same state with the same result,
    whatever else the environments hold. *)
Theorem Generate_environment_only_override (rt1 rt2 : Runtime)
    (dependencies : Parents) (a : Bootstrap) :
  os_LookupEnv rt1 releaseImageOverrideVar
  = os_LookupEnv rt2 releaseImageOverrideVar ->
  same_iteration rt1 rt2 ->
  run_Generate rt1 dependencies a = run_Generate rt2 dependencies a.
Proof.
  intros Henv Hiter. unfold run_Generate, Generate, mbind, M_bind, bind.
  destruct (Parents_Get dependencies installconfig_InstallConfig _)
    as [s1 [installConfig|msg]]; [|reflexivity].
  rewrite (getTemplateData_env rt1 rt2 _ Henv).
  destruct (getTemplateData rt2 _ s1) as [s2 [[td [err|]]|msg]];
    try reflexivity.
  by rewrite (addTemporaryBootkubeFiles_iteration rt1 rt2 td Hiter).
Qed.

End Surroundings.

Section GenerateExamples.
Import asset bootstrap fixture.

(** Receivers whose files differ as text hold different files. *)
Lemma Files_text_differ (a1 a2 : Bootstrap) :
  bool_decide (Files_text a1 = Files_text a2) = false -> Files a1 <> Files a2.
Proof.
  intros Hneq Heq. apply bool_decide_eq_false_1 in Hneq. apply Hneq.
  unfold Files_text. by rewrite Heq.
Qed.

Lemma order_backward_wf : Runtime_wf rt_backward.
Proof. intros site m. apply reverse_Permutation. Qed.

Lemma order_forward_wf : Runtime_wf rt_plain.
Proof. intros site m. reflexivity. Qed.

(** After a load that found nothing [Files] is empty; after a successful
    run of [Generate] it holds the marshalled configuration. *)
Lemma Files_before_and_after_Generate_witness :
  Files (Load fetcher_missing Bootstrap_zero).1 = []
  /\ exists cfg data,
       Config (recv (run_Generate rt_plain parents Bootstrap_zero).1) = Some cfg
       /\ json_Marshal cfg = (data, None)
       /\ Files (recv (run_Generate rt_plain parents Bootstrap_zero).1)
          = [ {| Filename := bootstrapIgnFilename; Data := data |} ].
Proof.
  split.
  - apply (proj1 Files_before_and_after_Generate).
    apply ns_Load; [apply ns_zero | intros err; discriminate].
  - apply (proj2 Files_before_and_after_Generate rt_plain parents
             Bootstrap_zero).
    vm_compute. reflexivity.
Defined.

(** An environment that sets HOME and one that sets nothing give the same
    run. *)
Lemma Generate_environment_only_override_witness :
  run_Generate rt_plain parents Bootstrap_zero
  = run_Generate rt_noise parents Bootstrap_zero.
Proof.
  apply (Generate_environment_only_override rt_plain rt_noise parents
           Bootstrap_zero).
  - reflexivity.
  - repeat split; reflexivity.
Defined.

(** C2 as stated fails: two runs on the same receiver and dependencies,
    with the same map iteration order, in process environments that differ
    only in OPENSHIFT_INSTALL_RELEASE_IMAGE_OVERRIDE; both succeed and
    their files differ, because the template data carries the override. *)
Lemma Generate_environment_counterexample :
  map_range rt_plain = map_range rt_override
  /\ (forall k, k <> releaseImageOverrideVar ->
        os_LookupEnv rt_plain k = os_LookupEnv rt_override k)
  /\ (exists td,
        (getTemplateData rt_plain (install_config []) tt).2
        = Done (Some td, None)
        /\ ReleaseImage td = defaultReleaseImage)
  /\ (exists td,
        (getTemplateData rt_override (install_config []) tt).2
        = Done (Some td, None)
        /\ ReleaseImage td = "example.com/release:custom")
  /\ (run_Generate rt_plain parents Bootstrap_zero).2 = Done None
  /\ (run_Generate rt_override parents Bootstrap_zero).2 = Done None
  /\ Files (recv (run_Generate rt_plain parents Bootstrap_zero).1)
     <> Files (recv (run_Generate rt_override parents Bootstrap_zero).1).
Proof.
  split; [reflexivity|]. split.
  { intros k Hk. simpl. unfold env_plain, env_override.
    by destruct (String.eqb_spec k releaseImageOverrideVar). }
  split; [eexists; split; vm_compute; reflexivity|].
  split; [eexists; split; vm_compute; reflexivity|].
  split; [vm_compute; reflexivity|]. split; [vm_compute; reflexivity|].
  apply Files_text_differ. vm_compute. reflexivity.
Qed.

(** C3 at a failing input: the content holds two kube-proxy manifests.
    Two runs on the same receiver, dependencies and process environment, in
    which the runtime yields the entries of that map in opposite orders
    (both orders list exactly the entries of the map); both succeed, and the
    bytes of the generated file differ. *)
Theorem Generate_map_order_changes_bytes :
  Runtime_wf rt_plain
  /\ Runtime_wf rt_backward
  /\ os_LookupEnv rt_plain = os_LookupEnv rt_backward
  /\ size KubeProxyBootkubeManifests = 2
  /\ (run_Generate rt_plain parents Bootstrap_zero).2 = Done None
  /\ (run_Generate rt_backward parents Bootstrap_zero).2 = Done None
  /\ Files (recv (run_Generate rt_plain parents Bootstrap_zero).1)
     <> Files (recv (run_Generate rt_backward parents Bootstrap_zero).1).
Proof.
  split; [apply order_forward_wf|]. split; [apply order_backward_wf|].
  split; [reflexivity|]. split; [vm_compute; reflexivity|].
  split; [vm_compute; reflexivity|]. split; [vm_compute; reflexivity|].
  apply Files_text_differ. vm_compute. reflexivity.
Qed.

End GenerateExamples.

(** ** Running the steps of [Generate] *)

Section Runs.
Import asset bootstrap.
Context {content : Content} {ext : Externals}.

Lemma bind_Done {S A B} (m : M S A) (k : A -> M S B) s s1 x :
  m s = (s1, Done x) -> (m ≫= k) s = k x s1.
Proof. intros Hm. unfold mbind, M_bind, bind. by rewrite Hm. Qed.

Lemma bind_Panicked {S A B} (m : M S A) (k : A -> M S B) s s1 msg :
  m s = (s1, Panicked msg) -> (m ≫= k) s = (s1, Panicked msg).
Proof. intros Hm. unfold mbind, M_bind, bind. by rewrite Hm. Qed.

Lemma Config_with_files_nil cfg : Config_with_files cfg [] = cfg.
Proof. unfold Config_with_files. rewrite app_nil_r. by destruct cfg. Qed.

Lemma Config_with_files_app cfg fs1 fs2 :
  Config_with_files (Config_with_files cfg fs1) fs2
  = Config_with_files cfg (fs1 ++ fs2).
Proof. unfold Config_with_files. simpl. by rewrite <- app_assoc. Qed.

Lemma stepped_stepped s ks1 cfg1 ks2 cfg2 :
  stepped (stepped s ks1 cfg1) ks2 cfg2 = stepped s (ks1 ++ ks2) cfg2.
Proof. unfold stepped. simpl. by rewrite <- app_assoc. Qed.

Lemma stepped_id s cfg :
  Config (recv s) = Some cfg -> stepped s [] cfg = s.
Proof.
  intros Hcfg. destruct s as [[c f] l]. simpl in *. subst c.
  unfold stepped. simpl. by rewrite app_nil_r.
Qed.

Lemma Parents_lookup_present (dependencies : Parents) k r :
  dependencies k = Some r -> Parents_lookup dependencies k = Done r.
Proof. intros Hk. unfold Parents_lookup. by rewrite Hk. Qed.

(** With a [Parents.Get] that panics for an absent type, a request yields
    an instance exactly when the view holds one. *)
Lemma Parents_lookup_Done_iff (dependencies : Parents) k r msg :
  Parents_Get_absent k = Panicked msg ->
  Parents_lookup dependencies k = Done r <-> dependencies k = Some r.
Proof.
  intros Habsent. unfold Parents_lookup.
  destruct (dependencies k) as [x|]; [|rewrite Habsent];
    split; intros H; by inversion H.
Qed.

Lemma Parents_Get_obtained (dependencies : Parents) k r (s : GenSt) :
  Parents_lookup dependencies k = Done r ->
  Parents_Get dependencies k s
  = ({| recv := recv s; requested := requested s ++ [k] |}, Done r).
Proof. intros Hk. unfold Parents_Get. by rewrite Hk. Qed.

Lemma Parents_Get_present (dependencies : Parents) k r (s : GenSt) :
  dependencies k = Some r ->
  Parents_Get dependencies k s
  = ({| recv := recv s; requested := requested s ++ [k] |}, Done r).
Proof. intros Hk. by apply Parents_Get_obtained, Parents_lookup_present. Qed.

Lemma Parents_Get_panics (dependencies : Parents) k msg (s : GenSt) :
  Parents_lookup dependencies k = Panicked msg ->
  Parents_Get dependencies k s
  = ({| recv := recv s; requested := requested s ++ [k] |}, Panicked msg).
Proof. intros Hk. unfold Parents_Get. by rewrite Hk. Qed.

(** Appending files computed by a step that leaves the state alone. *)
Lemma append_Storage_Files_Done (fs : M GenSt (list igntypes.File))
    (s : GenSt) cfg new :
  Config (recv s) = Some cfg -> fs s = (s, Done new) ->
  append_Storage_Files fs s = (stepped s [] (Config_with_files cfg new), Done tt).
Proof.
  intros Hcfg Hfs.
  unfold append_Storage_Files, mbind, M_bind, bind, Config_deref.
  rewrite Hcfg, Hfs. unfold Config_assign, stepped. simpl.
  by rewrite app_nil_r.
Qed.

Lemma append_Storage_Files_Panicked (fs : M GenSt (list igntypes.File))
    (s : GenSt) cfg msg :
  Config (recv s) = Some cfg -> fs s = (s, Panicked msg) ->
  append_Storage_Files fs s = (s, Panicked msg).
Proof.
  intros Hcfg Hfs.
  unfold append_Storage_Files, mbind, M_bind, bind, Config_deref.
  by rewrite Hcfg, Hfs.
Qed.

Lemma applyTemplateData_executes {S} t td (s : S) :
  executes t td -> applyTemplateData t td s = (s, Done (rendered t td)).
Proof.
  unfold executes, rendered, applyTemplateData.
  destruct (tmpl_Execute t td) as [text [err|]]; simpl; [discriminate|done].
Qed.

Lemma applyTemplateData_fails {S} t td (s : S) :
  ~ executes t td -> exists msg, applyTemplateData t td s = (s, Panicked msg).
Proof.
  unfold executes, applyTemplateData.
  destruct (tmpl_Execute t td) as [text [err|]]; simpl; [by eexists|done].
Qed.

(** Appending the one file rendered from a template. *)
Lemma append_rendered t td (mk : string -> igntypes.File) (s : GenSt) cfg :
  Config (recv s) = Some cfg -> executes t td ->
  append_Storage_Files (text ← applyTemplateData t td; ret [mk text]) s
  = (stepped s [] (Config_with_files cfg [mk (rendered t td)]), Done tt).
Proof.
  intros Hcfg Ht. apply append_Storage_Files_Done; [done|].
  by rewrite (bind_Done _ _ s s (rendered t td))
    by by apply applyTemplateData_executes.
Qed.

Lemma append_unrendered t td (mk : string -> igntypes.File) (s : GenSt) cfg :
  Config (recv s) = Some cfg -> ~ executes t td ->
  exists msg,
    append_Storage_Files (text ← applyTemplateData t td; ret [mk text]) s
    = (s, Panicked msg).
Proof.
  intros Hcfg Ht.
  destruct (applyTemplateData_fails t td s Ht) as [msg Hmsg].
  exists msg. apply (append_Storage_Files_Panicked _ s cfg); [done|].
  by apply bind_Panicked.
Qed.

(** Bringing the state reached after some steps into the form
    [stepped s ks cfg]. *)
Ltac restep :=
  unfold stepped; simpl;
  rewrite ?Config_with_files_app, ?Config_with_files_nil,
    ?app_nil_r, <- ?app_assoc;
  simpl; try reflexivity.

Lemma addBootstrapFiles_run (dependencies : Parents) kubelet f0
    (s : GenSt) cfg :
  Parents_lookup dependencies kubeconfig_Kubelet = Done kubelet ->
  head (ra_Files kubelet) = Some f0 ->
  Config (recv s) = Some cfg ->
  addBootstrapFiles dependencies s
  = (stepped s [kubeconfig_Kubelet]
       (Config_with_files cfg (bootstrap_files f0)), Done tt).
Proof.
  intros Hdep Hhead Hcfg. unfold addBootstrapFiles.
  erewrite bind_Done; [|by apply Parents_Get_obtained].
  destruct (ra_Files kubelet) as [|f rest]; [discriminate|].
  injection Hhead as ->.
  erewrite bind_Done;
    [|by apply (append_Storage_Files_Done _ _ cfg)].
  erewrite append_Storage_Files_Done; [|reflexivity|reflexivity].
  unfold bootstrap_files. restep.
Qed.

Lemma overrides_run td (overrides : list Template) (s : GenSt) cfg :
  Config (recv s) = Some cfg ->
  Forall (fun o => executes o td) overrides ->
  for_range overrides (fun o =>
    append_Storage_Files
      (text ← applyTemplateData o td;
       ret [FileFromString
              (filepath_Join
                 [filepath_Join [rootDir; "bootkube-config-overrides"];
                  tmpl_Name o])
              (octal 6 0 0) text])) s
  = (stepped s [] (Config_with_files cfg (override_files td overrides)),
     Done tt).
Proof.
  intros Hcfg Hall. revert s cfg Hcfg.
  induction Hall as [|o overrides Ho _ IH]; intros s cfg Hcfg.
  - simpl. unfold ret, override_files. simpl.
    by rewrite Config_with_files_nil, stepped_id.
  - simpl for_range.
    erewrite bind_Done;
      [|by apply (append_rendered o td
                    (fun text =>
                       FileFromString
                         (filepath_Join
                            [filepath_Join [rootDir; "bootkube-config-overrides"];
                             tmpl_Name o])
                         (octal 6 0 0) text) s cfg)].
    erewrite IH; [|reflexivity]. restep.
Qed.

Lemma addBootkubeFiles_run (dependencies : Parents) td admin manifests
    (s : GenSt) cfg :
  Parents_lookup dependencies kubeconfig_Admin = Done admin ->
  Parents_lookup dependencies manifests_Manifests = Done manifests ->
  executes BootkubeShFileTemplate td ->
  Forall (fun o => executes o td) BootkubeConfigOverrides ->
  Config (recv s) = Some cfg ->
  addBootkubeFiles dependencies td s
  = (stepped s [kubeconfig_Admin; manifests_Manifests]
       (Config_with_files cfg (bootkube_files td admin manifests)), Done tt).
Proof.
  intros Hadmin Hman Hsh Hov Hcfg. unfold addBootkubeFiles.
  erewrite bind_Done; [|by apply Parents_Get_obtained].
  erewrite bind_Done; [|by apply Parents_Get_obtained].
  erewrite bind_Done;
    [|by apply (append_rendered BootkubeShFileTemplate td
                  (fun text =>
                     FileFromString "/usr/local/bin/bootkube.sh"
                       (octal 5 5 5) text) _ cfg)].
  erewrite bind_Done; [|by apply overrides_run].
  erewrite bind_Done;
    [|by apply append_Storage_Files_Done].
  erewrite append_Storage_Files_Done; [|reflexivity|reflexivity].
  unfold bootkube_files. restep.
Qed.

Lemma addManifests_run (rt : Runtime) site dir m (s : GenSt) cfg :
  Config (recv s) = Some cfg ->
  addManifests rt site dir m s
  = (stepped s []
       (Config_with_files cfg (manifest_files dir (map_range rt site m))),
     Done tt).
Proof.
  intros Hcfg. rewrite (addManifests_order rt site dir m s cfg Hcfg).
  unfold stepped, Config_with_files. by rewrite app_nil_r.
Qed.

Lemma addTemporaryBootkubeFiles_run (rt : Runtime) td (s : GenSt) cfg :
  executes BootkubeKubeDNSService td ->
  Config (recv s) = Some cfg ->
  addTemporaryBootkubeFiles rt td s
  = (stepped s [] (Config_with_files cfg (temporary_bootkube_files rt td)),
     Done tt).
Proof.
  intros Hsvc Hcfg. unfold addTemporaryBootkubeFiles.
  erewrite bind_Done; [|by apply addManifests_run].
  erewrite bind_Done; [|by apply addManifests_run].
  erewrite bind_Done; [|by apply addManifests_run].
  erewrite (append_rendered BootkubeKubeDNSService td
              (fun text =>
                 FileFromString
                   (filepath_Join
                      [filepath_Join [rootDir; "kube-dns-operator-bootstrap"];
                       "kube-dns-svc.yaml"])
                   (octal 6 4 4) text)); [|reflexivity|done].
  unfold temporary_bootkube_files. restep.
Qed.

Lemma addTectonicFiles_run (dependencies : Parents) tectonic (s : GenSt) cfg :
  Parents_lookup dependencies manifests_Tectonic = Done tectonic ->
  Config (recv s) = Some cfg ->
  addTectonicFiles dependencies s
  = (stepped s [manifests_Tectonic]
       (Config_with_files cfg (tectonic_files tectonic)), Done tt).
Proof.
  intros Hdep Hcfg. unfold addTectonicFiles.
  erewrite bind_Done; [|by apply Parents_Get_obtained].
  erewrite bind_Done; [|by apply (append_Storage_Files_Done _ _ cfg)].
  erewrite append_Storage_Files_Done; [|reflexivity|reflexivity].
  unfold tectonic_files. restep.
Qed.

Lemma cert_files_run (dependencies : Parents) (r : AssetKind -> Resolved)
    (ks : list AssetKind) (s : GenSt) cfg :
  (forall k, k ∈ ks -> Parents_lookup dependencies k = Done (r k)) ->
  Config (recv s) = Some cfg ->
  for_range ks (fun k =>
    asset ← Parents_Get dependencies k;
    append_Storage_Files (ret (FilesFromAsset rootDir (octal 6 0 0) asset))) s
  = (stepped s ks (Config_with_files cfg (cert_files r ks)), Done tt).
Proof.
  revert s cfg. induction ks as [|k ks IH]; intros s cfg Hdeps Hcfg.
  - simpl. unfold ret, cert_files. simpl.
    by rewrite Config_with_files_nil, stepped_id.
  - simpl for_range.
    erewrite bind_Done.
    2: { erewrite bind_Done; [|apply Parents_Get_obtained, Hdeps; left].
         by apply (append_Storage_Files_Done _ _ cfg). }
    erewrite IH; [|intros k' Hk'; apply Hdeps; by right|reflexivity].
    unfold cert_files. restep.
Qed.

Lemma addTLSCertFiles_run (dependencies : Parents)
    (r : AssetKind -> Resolved) (s : GenSt) cfg :
  (forall k, k ∈ tlsCertAssets ->
     Parents_lookup dependencies k = Done (r k)) ->
  Config (recv s) = Some cfg ->
  addTLSCertFiles dependencies s
  = (stepped s (tlsCertAssets ++ [tls_EtcdClientCertKey])
       (Config_with_files cfg (tls_files r)), Done tt).
Proof.
  intros Hdeps Hcfg. unfold addTLSCertFiles.
  erewrite bind_Done; [|by apply (cert_files_run dependencies r)].
  erewrite bind_Done; [|apply Parents_Get_obtained, Hdeps; declared].
  erewrite append_Storage_Files_Done; [|reflexivity|reflexivity].
  unfold tls_files. restep.
Qed.

(** [getTemplateData] leaves the state alone, and its result does not
    depend on the state. *)
Lemma getTemplateData_state {S} (rt : Runtime) c (s : S) :
  getTemplateData rt c s = (s, (getTemplateData rt c tt).2).
Proof.
  unfold getTemplateData.
  destruct (installconfig_ClusterDNSIP c) as [ip [err|]]; [reflexivity|].
  by destruct ((types.MasterCount c <? 0) || (makeslice_max_len <? _))%Z.
Qed.

(** A run of [Generate] on inputs that carry it to the marshalling step:
    the configuration is built as described by [generated_Config], the
    requests are those of [Generate_trace], and the outcome is decided by
    [json.Marshal]. *)
Lemma Generate_inputs_obtained (rt : Runtime) (dependencies : Parents) r td
    f0 :
  Generate_inputs rt dependencies r td f0 ->
  Generate_obtained rt dependencies r td f0.
Proof.
  intros [Hdeps Htd Hf0 Hsh Hov Hsvc]. split; try done.
  intros k Hk. by apply Parents_lookup_present, Hdeps.
Qed.

Lemma Generate_run (rt : Runtime) (dependencies : Parents) r td f0
    (a : Bootstrap) :
  Generate_obtained rt dependencies r td f0 ->
  run_Generate rt dependencies a
  = match json_Marshal (generated_Config rt r td f0) with
    | (data, None) =>
        ({| recv :=
              {| Config := Some (generated_Config rt r td f0);
                 File := Some {| Filename := bootstrapIgnFilename;
                                 Data := data |} |};
            requested := Generate_trace |}, Done None)
    | (_, Some err) =>
        ({| recv := {| Config := Some (generated_Config rt r td f0);
                       File := File a |};
            requested := Generate_trace |},
         Done (Some (ErrWrap err "failed to Marshal Ignition config")))
    end.
Proof.
  intros [Hdeps Htd Hf0 Hsh Hov Hsvc]. unfold run_Generate, Generate.
  erewrite bind_Done; [|apply Parents_Get_obtained, Hdeps; declared].
  erewrite bind_Done; [|by rewrite getTemplateData_state, Htd].
  cbv beta iota.
  erewrite bind_Done; [|reflexivity].
  erewrite bind_Done;
    [|by apply (addBootstrapFiles_run dependencies (r kubeconfig_Kubelet) f0);
         [apply Hdeps; declared|..]].
  erewrite bind_Done;
    [|by apply (addBootkubeFiles_run dependencies td (r kubeconfig_Admin)
                  (r manifests_Manifests));
         [apply Hdeps; declared|apply Hdeps; declared|..]].
  erewrite bind_Done; [|by apply addTemporaryBootkubeFiles_run].
  erewrite bind_Done;
    [|by apply (addTectonicFiles_run dependencies (r manifests_Tectonic));
         [apply Hdeps; declared|]].
  erewrite bind_Done.
  2: { apply (addTLSCertFiles_run dependencies r); [|reflexivity].
       intros k Hk. apply Hdeps. unfold Generate_trace.
       apply elem_of_app. right. apply elem_of_app. by left. }
  unfold append_Systemd_Units, append_Passwd_Users, Config_deref,
    Config_assign, File_assign, mbind, M_bind, bind, ret.
  simpl.
  match goal with
  | |- context [json_Marshal ?c] =>
      replace c with (generated_Config rt r td f0)
  end.
  - by destruct (json_Marshal (generated_Config rt r td f0)) as [data [err|]].
  - unfold generated_Config, bootstrap_files, bootkube_files. simpl.
    by rewrite <- !app_assoc.
Qed.

(** *** From a run that returned to what its inputs were *)

Lemma bind_Done_inv {S A B} (m : M S A) (k : A -> M S B) s s' y :
  (m ≫= k) s = (s', Done y) ->
  exists s1 x, m s = (s1, Done x) /\ k x s1 = (s', Done y).
Proof.
  unfold mbind, M_bind, bind. destruct (m s) as [s1 [x|msg]]; [|discriminate].
  intros Hk. by exists s1, x.
Qed.

Lemma for_range_Done_inv {S A} (xs : list A) (body : A -> M S unit) s s' u :
  for_range xs body s = (s', Done u) ->
  forall x, x ∈ xs -> exists s1 s2 v, body x s1 = (s2, Done v).
Proof.
  revert s. induction xs as [|x xs IH]; intros s Hrun y Hy.
  - by apply elem_of_nil in Hy.
  - simpl in Hrun. apply bind_Done_inv in Hrun as (s1 & v & Hx & Hrest).
    apply elem_of_cons in Hy as [->|Hy]; [by exists s, s1, v|].
    by apply (IH s1).
Qed.

Lemma Parents_Get_Done_inv (dependencies : Parents) k (s s' : GenSt) r :
  Parents_Get dependencies k s = (s', Done r) ->
  Parents_lookup dependencies k = Done r.
Proof. unfold Parents_Get. by intros [= _ ->]. Qed.

Lemma append_Storage_Files_Done_inv (fs : M GenSt (list igntypes.File))
    (s s' : GenSt) u :
  append_Storage_Files fs s = (s', Done u) ->
  exists s1 new, fs s = (s1, Done new).
Proof.
  unfold append_Storage_Files. intros H.
  apply bind_Done_inv in H as (s0 & c & Hc & H).
  apply bind_Done_inv in H as (s1 & new & Hfs & _).
  unfold Config_deref in Hc. destruct (Config (recv s)); [|discriminate].
  injection Hc as <- _. by exists s1, new.
Qed.

Lemma append_rendered_inv t td (mk : string -> igntypes.File)
    (s s' : GenSt) u :
  append_Storage_Files (text ← applyTemplateData t td; ret [mk text]) s
  = (s', Done u) ->
  executes t td.
Proof.
  intros H. apply append_Storage_Files_Done_inv in H as (s1 & new & H).
  apply bind_Done_inv in H as (s2 & text & H & _).
  unfold applyTemplateData, executes in *.
  by destruct (tmpl_Execute t td) as [buf [err|]].
Qed.

Lemma addBootstrapFiles_Done_inv (dependencies : Parents) (s s' : GenSt) u :
  addBootstrapFiles dependencies s = (s', Done u) ->
  exists kubelet f0,
    Parents_lookup dependencies kubeconfig_Kubelet = Done kubelet
    /\ head (ra_Files kubelet) = Some f0.
Proof.
  unfold addBootstrapFiles. intros H.
  apply bind_Done_inv in H as (s1 & kubelet & Hget & H).
  apply Parents_Get_Done_inv in Hget.
  apply bind_Done_inv in H as (s2 & v & H & _).
  apply append_Storage_Files_Done_inv in H as (s3 & new & H).
  destruct (ra_Files kubelet) as [|f0 rest] eqn:Hfiles; [discriminate|].
  exists kubelet, f0. by rewrite Hfiles.
Qed.

Lemma addBootkubeFiles_Done_inv (dependencies : Parents) td
    (s s' : GenSt) u :
  addBootkubeFiles dependencies td s = (s', Done u) ->
  (exists admin, Parents_lookup dependencies kubeconfig_Admin = Done admin)
  /\ (exists manifests,
        Parents_lookup dependencies manifests_Manifests = Done manifests)
  /\ executes BootkubeShFileTemplate td
  /\ Forall (fun o => executes o td) BootkubeConfigOverrides.
Proof.
  unfold addBootkubeFiles. intros H.
  apply bind_Done_inv in H as (s1 & admin & Hadmin & H).
  apply bind_Done_inv in H as (s2 & manifests & Hman & H).
  apply bind_Done_inv in H as (s3 & v & Hsh & H).
  apply bind_Done_inv in H as (s4 & w & Hov & _).
  apply Parents_Get_Done_inv in Hadmin, Hman.
  apply append_rendered_inv in Hsh.
  repeat split; eauto.
  apply Forall_forall. intros o Ho.
  destruct (for_range_Done_inv _ _ _ _ _ Hov o Ho) as (t1 & t2 & x & Hbody).
  by apply append_rendered_inv in Hbody.
Qed.

Lemma addTemporaryBootkubeFiles_Done_inv (rt : Runtime) td (s s' : GenSt) u :
  addTemporaryBootkubeFiles rt td s = (s', Done u) ->
  executes BootkubeKubeDNSService td.
Proof.
  unfold addTemporaryBootkubeFiles. intros H.
  apply bind_Done_inv in H as (s1 & v1 & _ & H).
  apply bind_Done_inv in H as (s2 & v2 & _ & H).
  apply bind_Done_inv in H as (s3 & v3 & _ & H).
  by apply append_rendered_inv in H.
Qed.

Lemma addTectonicFiles_Done_inv (dependencies : Parents) (s s' : GenSt) u :
  addTectonicFiles dependencies s = (s', Done u) ->
  exists tectonic,
    Parents_lookup dependencies manifests_Tectonic = Done tectonic.
Proof.
  unfold addTectonicFiles. intros H.
  apply bind_Done_inv in H as (s1 & tectonic & Hget & _).
  apply Parents_Get_Done_inv in Hget. eauto.
Qed.

Lemma addTLSCertFiles_Done_inv (dependencies : Parents) (s s' : GenSt) u :
  addTLSCertFiles dependencies s = (s', Done u) ->
  forall k, k ∈ tlsCertAssets ->
    exists r, Parents_lookup dependencies k = Done r.
Proof.
  unfold addTLSCertFiles. intros H k Hk.
  apply bind_Done_inv in H as (s1 & v & Hloop & _).
  destruct (for_range_Done_inv _ _ _ _ _ Hloop k Hk) as (t1 & t2 & x & Hbody).
  apply bind_Done_inv in Hbody as (t3 & r & Hget & _).
  apply Parents_Get_Done_inv in Hget. eauto.
Qed.

Lemma Generate_trace_cases k :
  k ∈ Generate_trace ->
  k = installconfig_InstallConfig \/ k = kubeconfig_Kubelet
  \/ k = kubeconfig_Admin \/ k = manifests_Manifests
  \/ k = manifests_Tectonic \/ k ∈ tlsCertAssets.
Proof.
  unfold Generate_trace. intros Hk.
  repeat (apply elem_of_cons in Hk as [->|Hk]; [tauto|]).
  apply elem_of_app in Hk as [Hk|Hk]; [tauto|].
  apply list_elem_of_singleton in Hk as ->.
  do 5 right. declared.
Qed.

(** A run of [Generate] that returned nil had the inputs it needs. *)
Lemma Generate_Done_inv (rt : Runtime) (dependencies : Parents)
    (a : Bootstrap) s :
  run_Generate rt dependencies a = (s, Done None) ->
  exists ic td f0,
    Parents_lookup dependencies installconfig_InstallConfig = Done ic
    /\ Generate_obtained rt dependencies (obtained_or dependencies ic) td f0.
Proof.
  unfold run_Generate, Generate. intros H.
  apply bind_Done_inv in H as (s1 & ic & Hic & H).
  apply Parents_Get_Done_inv in Hic.
  apply bind_Done_inv in H as (s2 & [td oerr] & Htd & H).
  rewrite getTemplateData_state in Htd. injection Htd as _ Htd.
  destruct oerr as [err|]; [discriminate H|].
  apply bind_Done_inv in H as (s3 & v3 & _ & H).
  apply bind_Done_inv in H as (s4 & v4 & Hbs & H).
  apply bind_Done_inv in H as (s5 & v5 & Hbk & H).
  apply bind_Done_inv in H as (s6 & v6 & Htmp & H).
  apply bind_Done_inv in H as (s7 & v7 & Htec & H).
  apply bind_Done_inv in H as (s8 & v8 & Htls & _).
  apply addBootstrapFiles_Done_inv in Hbs as (kubelet & f0 & Hkubelet & Hf0).
  apply addBootkubeFiles_Done_inv in Hbk
    as ((admin & Hadmin) & (manifests & Hman) & Hsh & Hov).
  apply addTemporaryBootkubeFiles_Done_inv in Htmp.
  apply addTectonicFiles_Done_inv in Htec as (tectonic & Htec).
  pose proof (addTLSCertFiles_Done_inv _ _ _ _ Htls) as Hcerts.
  exists ic, td, f0. split; [done|]. split; try done.
  - intros k Hk. unfold obtained_or.
    assert (Hsome : exists x, Parents_lookup dependencies k = Done x).
    { destruct (Generate_trace_cases k Hk)
        as [->|[->|[->|[->|[->|Hc]]]]]; eauto. }
    by destruct Hsome as [x ->].
  - unfold obtained_or. by rewrite Hic.
  - unfold obtained_or. by rewrite Hkubelet.
Qed.

End Runs.

(** ** The outcomes of [Generate] *)

Section Outcomes.
Import asset bootstrap.
Context {content : Content} {ext : Externals}.

(** X1: [Generate] returns nil exactly when a request for each of the
    nineteen types of its trace yields an instance (one the view holds, or
    one [Parents.Get] hands back for a type the view lacks), the template
    data is computed without error, the kubelet kubeconfig has a first
    file, every template executes, and the built configuration marshals
    without error. *)
Theorem Generate_succeeds_iff (rt : Runtime) (dependencies : Parents)
    (a : Bootstrap) :
  (run_Generate rt dependencies a).2 = Done None
  <-> exists r td f0,
        Generate_obtained rt dependencies r td f0
        /\ (json_Marshal (generated_Config rt r td f0)).2 = None.
Proof.
  split.
  - intros Hrun.
    destruct (run_Generate rt dependencies a) as [s res] eqn:Hs.
    simpl in Hrun. subst res.
    destruct (Generate_Done_inv rt dependencies a s Hs)
      as (ic & td & f0 & _ & Hin).
    exists (obtained_or dependencies ic), td, f0. split; [done|].
    rewrite (Generate_run rt dependencies _ td f0 a Hin) in Hs.
    by destruct (json_Marshal _) as [data [err|]].
  - intros (r & td & f0 & Hin & Hm).
    rewrite (Generate_run rt dependencies r td f0 a Hin).
    destruct (json_Marshal _) as [data [err|]]; [discriminate Hm|done].
Qed.

(** X2: on inputs that satisfy [Generate_inputs] and whose configuration
    marshals, [Generate] ends with [a.Config] the configuration
    described by [generated_Config], [a.File] the file [bootstrap.ign]
    holding its marshalled bytes, and the requests of [Generate_trace] in
    that order: the outcome does not depend on what the receiver held. *)
Theorem Generate_success_state (rt : Runtime) (dependencies : Parents) r td
    f0 data (a : Bootstrap) :
  Generate_inputs rt dependencies r td f0 ->
  json_Marshal (generated_Config rt r td f0) = (data, None) ->
  run_Generate rt dependencies a
  = ({| recv :=
          {| Config := Some (generated_Config rt r td f0);
             File := Some {| Filename := bootstrapIgnFilename;
                             Data := data |} |};
        requested := Generate_trace |}, Done None).
Proof.
  intros Hin%Generate_inputs_obtained Hm.
  rewrite (Generate_run rt dependencies r td f0 a Hin). by rewrite Hm.
Qed.

(** X3: when only the marshalling fails, [Generate] returns that error
    wrapped, having already assigned the built configuration to [a.Config];
    [a.File] is what it was. *)
Theorem Generate_marshal_failure (rt : Runtime) (dependencies : Parents) r td
    f0 data err (a : Bootstrap) :
  Generate_inputs rt dependencies r td f0 ->
  json_Marshal (generated_Config rt r td f0) = (data, Some err) ->
  run_Generate rt dependencies a
  = ({| recv := {| Config := Some (generated_Config rt r td f0);
                   File := File a |};
        requested := Generate_trace |},
     Done (Some (ErrWrap err "failed to Marshal Ignition config"))).
Proof.
  intros Hin%Generate_inputs_obtained Hm.
  rewrite (Generate_run rt dependencies r td f0 a Hin). by rewrite Hm.
Qed.

(** X6: every type of the trace is requested on the way to a nil return:
    if [Parents.Get] panics for any one of the nineteen types, [Generate]
    does not return nil. *)
Theorem Generate_needs_every_request (rt : Runtime) (dependencies : Parents)
    (a : Bootstrap) k msg :
  k ∈ Generate_trace ->
  Parents_lookup dependencies k = Panicked msg ->
  (run_Generate rt dependencies a).2 <> Done None.
Proof.
  intros Hk Hpanic Hrun.
  destruct (run_Generate rt dependencies a) as [s res] eqn:Hs.
  simpl in Hrun. subst res.
  destruct (Generate_Done_inv rt dependencies a s Hs)
    as (ic & td & f0 & _ & [Hobtained _ _ _ _ _]).
  specialize (Hobtained k Hk). congruence.
Qed.

Lemma manifest_files_Permutation dir (l1 l2 : list (string * string)) :
  l1 ≡ₚ l2 -> manifest_files dir l1 ≡ₚ manifest_files dir l2.
Proof. intros Hl. unfold manifest_files. by apply Permutation_map. Qed.

Lemma temporary_bootkube_files_Permutation (rt1 rt2 : Runtime) td :
  Runtime_wf rt1 -> Runtime_wf rt2 ->
  temporary_bootkube_files rt1 td ≡ₚ temporary_bootkube_files rt2 td.
Proof.
  intros H1 H2. unfold temporary_bootkube_files.
  repeat (apply Permutation_app;
          [apply manifest_files_Permutation;
           etransitivity; [apply H1|symmetry; apply H2]|]).
  reflexivity.
Qed.

(** A run that returned nil, in terms of the state it reached. *)
Lemma Generate_Done_state (rt : Runtime) (dependencies : Parents)
    (a : Bootstrap) s :
  run_Generate rt dependencies a = (s, Done None) ->
  exists ic td f0 data,
    Parents_lookup dependencies installconfig_InstallConfig = Done ic
    /\ Generate_obtained rt dependencies (obtained_or dependencies ic) td f0
    /\ json_Marshal (generated_Config rt (obtained_or dependencies ic) td f0)
       = (data, None)
    /\ recv s
       = {| Config :=
              Some (generated_Config rt (obtained_or dependencies ic) td f0);
            File := Some {| Filename := bootstrapIgnFilename;
                            Data := data |} |}.
Proof.
  intros Hs.
  destruct (Generate_Done_inv rt dependencies a s Hs)
    as (ic & td & f0 & Hic & Hin).
  exists ic, td, f0.
  rewrite (Generate_run rt dependencies _ td f0 a Hin) in Hs.
  destruct (json_Marshal _) as [data [err|]]; [discriminate Hs|].
  exists data. by injection Hs as <-.
Qed.

(** X8: two runs of [Generate] that return nil on the same dependencies,
    in processes that agree on the override variable but whose runtimes
    iterate the maps in any orders, build configurations with the same
    version, units and users, and with the same storage files up to their
    order. *)
Theorem Generate_files_up_to_order (rt1 rt2 : Runtime)
    (dependencies : Parents) (a1 a2 : Bootstrap) s1 s2 :
  Runtime_wf rt1 -> Runtime_wf rt2 ->
  os_LookupEnv rt1 releaseImageOverrideVar
  = os_LookupEnv rt2 releaseImageOverrideVar ->
  run_Generate rt1 dependencies a1 = (s1, Done None) ->
  run_Generate rt2 dependencies a2 = (s2, Done None) ->
  exists cfg1 cfg2,
    Config (recv s1) = Some cfg1 /\ Config (recv s2) = Some cfg2
    /\ igntypes.Storage_Files cfg1 ≡ₚ igntypes.Storage_Files cfg2
    /\ igntypes.Ignition_Version cfg1 = igntypes.Ignition_Version cfg2
    /\ igntypes.Systemd_Units cfg1 = igntypes.Systemd_Units cfg2
    /\ igntypes.Passwd_Users cfg1 = igntypes.Passwd_Users cfg2.
Proof.
  intros Hwf1 Hwf2 Henv Hrun1 Hrun2.
  destruct (Generate_Done_state _ _ _ _ Hrun1)
    as (ic1 & td1 & f1 & d1 & Hic1 & [_ Htd1 Hf1 _ _ _] & _ & ->).
  destruct (Generate_Done_state _ _ _ _ Hrun2)
    as (ic2 & td2 & f2 & d2 & Hic2 & [_ Htd2 Hf2 _ _ _] & _ & ->).
  assert (ic2 = ic1) as -> by congruence.
  assert (f2 = f1) as -> by congruence.
  rewrite (getTemplateData_env rt1 rt2 _ Henv) in Htd1.
  assert (td2 = td1) as -> by congruence.
  eexists _, _. split; [reflexivity|]. split; [reflexivity|].
  unfold generated_Config.
  cbn [igntypes.Storage_Files igntypes.Ignition_Version
       igntypes.Systemd_Units igntypes.Passwd_Users].
  repeat split.
  do 2 apply Permutation_app_head.
  apply Permutation_app_tail.
  by apply temporary_bootkube_files_Permutation.
Qed.

(** X9: loading what [Generate] wrote.  When unmarshalling inverts the
    marshalling of the generated configuration, a [Load] from a store that
    holds the generated file reconstructs, on any receiver, exactly the
    receiver [Generate] left. *)
Theorem Load_after_Generate (rt : Runtime) (dependencies : Parents)
    (a a' : Bootstrap) s (f : FileFetcher) :
  run_Generate rt dependencies a = (s, Done None) ->
  (forall cfg data,
     Config (recv s) = Some cfg -> json_Marshal cfg = (data, None) ->
     json_Unmarshal data Config_zero = (cfg, None)) ->
  FetchByName f bootstrapIgnFilename = (File (recv s), None) ->
  Load f a' = (recv s, Done (true, None)).
Proof.
  intros Hrun Hround Hfetch.
  destruct (Generate_Done_state _ _ _ _ Hrun)
    as (ic & td & f0 & data & _ & _ & Hm & Hs).
  rewrite Hs in *. simpl in *.
  by rewrite (Load_decoded f a' _ _ Hfetch (Hround _ _ eq_refl Hm)).
Qed.

(** X10: a call of [Generate] that does not return nil and a call of
    [Load] that does not find the artifact leave the result of [Files]
    as it was, on any receiver. *)
Theorem failed_calls_keep_Files (rt : Runtime) (dependencies : Parents)
    (f : FileFetcher) (a : Bootstrap) :
  ((run_Generate rt dependencies a).2 <> Done None ->
   Files (recv (run_Generate rt dependencies a).1) = Files a)
  /\ ((forall err, (Load f a).2 <> Done (true, err)) ->
      Files (Load f a).1 = Files a).
Proof.
  split.
  - intros Hfail. unfold Files. by rewrite Generate_failure_keeps_File.
  - intros Hfail. by rewrite Load_unsuccessful_keeps_state.
Qed.

End Outcomes.

(** ** The template data *)

Section TemplateData.
Import asset bootstrap.
Context {content : Content} {ext : Externals}.

(** The ways [getTemplateData] ends, by what [ClusterDNSIP] returns and
    by the sign of the master count. *)
Lemma getTemplateData_cases {S} (rt : Runtime) c (s : S) res :
  (getTemplateData rt c s).2 = Done res ->
  (exists err,
     (installconfig_ClusterDNSIP c).2 = Some err
     /\ res = (None, Some (ErrWrap err
                             "failed to get ClusterDNSIP from InstallConfig")))
  \/ (exists td,
        (installconfig_ClusterDNSIP c).2 = None
        /\ (0 <= types.MasterCount c <= makeslice_max_len)%Z
        /\ res = (Some td, None)
        /\ ClusterDNSIP td = (installconfig_ClusterDNSIP c).1
        /\ ReleaseImage td
           = match os_LookupEnv rt releaseImageOverrideVar with
             | Some ri => if String.eqb ri "" then defaultReleaseImage else ri
             | None => defaultReleaseImage
             end
        /\ EtcdCluster td
           = strings_Join
               (map (fun i => etcdEndpoint (types.ObjectMeta_Name c) i
                                (types.BaseDomain c))
                    (seq 0 (Z.to_nat (types.MasterCount c)))) ",").
Proof.
  unfold getTemplateData.
  destruct (installconfig_ClusterDNSIP c) as [ip [err|]]; simpl.
  - intros [= <-]. left. by exists err.
  - destruct (types.MasterCount c <? 0)%Z eqn:Hn; [discriminate|].
    destruct (makeslice_max_len <? types.MasterCount c)%Z eqn:Hmax;
      [discriminate|].
    intros [= <-]. right. eexists. repeat split; try reflexivity.
    + by apply Z.ltb_ge.
    + by apply Z.ltb_ge.
Qed.

(** X11: in the template data [getTemplateData] returns, the release image
    is the value of OPENSHIFT_INSTALL_RELEASE_IMAGE_OVERRIDE when the
    variable is set to a non-empty string; when it is unset, and also when
    it is set to the empty string, it is the default release image. *)
Theorem getTemplateData_release_image {S} (rt : Runtime) c (s : S) td oerr :
  (getTemplateData rt c s).2 = Done (Some td, oerr) ->
  (os_LookupEnv rt releaseImageOverrideVar = None ->
   ReleaseImage td = defaultReleaseImage)
  /\ (os_LookupEnv rt releaseImageOverrideVar = Some "" ->
      ReleaseImage td = defaultReleaseImage)
  /\ (forall ri, os_LookupEnv rt releaseImageOverrideVar = Some ri ->
        ri <> "" -> ReleaseImage td = ri).
Proof.
  intros Hrun.
  destruct (getTemplateData_cases rt c s _ Hrun)
    as [(err & _ & [=]) | (td' & _ & _ & [= <- _] & _ & Hri & _)].
  rewrite Hri. repeat split.
  - by intros ->.
  - by intros ->.
  - intros ri -> Hne. by destruct (String.eqb_spec ri "").
Qed.

(** X12: the etcd cluster string of the returned template data joins, with
    commas, exactly [MasterCount] endpoints, the one at position [i] being
    https://NAME-etcd-i.DOMAIN:2379; with no master pool that carries a
    replica count it is the single endpoint of index 0. *)
Theorem getTemplateData_etcd_endpoints {S} (rt : Runtime) c (s : S) td oerr :
  (getTemplateData rt c s).2 = Done (Some td, oerr) ->
  (exists endpoints : list string,
     EtcdCluster td = strings_Join endpoints ","
     /\ Z.of_nat (length endpoints) = types.MasterCount c
     /\ forall i, (i < length endpoints)%nat ->
          endpoints !! i
          = Some (etcdEndpoint (types.ObjectMeta_Name c) i (types.BaseDomain c)))
  /\ ((forall m, m ∈ types.Machines c -> ~ types.decides m) ->
      EtcdCluster td
      = etcdEndpoint (types.ObjectMeta_Name c) 0 (types.BaseDomain c)).
Proof.
  intros Hrun.
  destruct (getTemplateData_cases rt c s _ Hrun)
    as [(err & _ & [=]) | (td' & _ & [Hn _] & [= <- _] & _ & _ & Hetcd)].
  split.
  - eexists. split; [exact Hetcd|]. rewrite length_map, length_seq. split.
    + by apply Z2Nat.id.
    + intros i Hi. rewrite list_lookup_fmap, lookup_seq_lt by done.
      reflexivity.
  - intros Hnone. rewrite Hetcd. unfold types.MasterCount.
    by rewrite MasterCount_loop_none.
Qed.

(** X4: when [ClusterDNSIP] fails on the install configuration, [Generate]
    returns that error wrapped twice, having requested the install
    configuration only and changed nothing in the receiver. *)
Theorem Generate_dns_failure (rt : Runtime) (dependencies : Parents) ic err
    (a : Bootstrap) :
  dependencies installconfig_InstallConfig = Some ic ->
  (installconfig_ClusterDNSIP (ra_Config ic)).2 = Some err ->
  run_Generate rt dependencies a
  = ({| recv := a; requested := [installconfig_InstallConfig] |},
     Done (Some (ErrWrap
                   (ErrWrap err "failed to get ClusterDNSIP from InstallConfig")
                   "failed to get bootstrap templates"))).
Proof.
  intros Hic Herr. unfold run_Generate, Generate.
  erewrite bind_Done; [|by apply Parents_Get_present].
  unfold getTemplateData, mbind, M_bind, bind.
  destruct (installconfig_ClusterDNSIP (ra_Config ic)) as [ip oerr].
  simpl in Herr. by subst oerr.
Qed.

(** X5: when the install configuration is present and [ClusterDNSIP]
    succeeds on it, a master count that is negative (a "master" pool with
    a negative replica value) or larger than [make] accepts makes
    [Generate] panic when it sizes the list of etcd endpoints; only the
    install configuration was requested and the receiver is unchanged. *)
Theorem Generate_master_count_out_of_range (rt : Runtime)
    (dependencies : Parents) ic (a : Bootstrap) :
  dependencies installconfig_InstallConfig = Some ic ->
  (installconfig_ClusterDNSIP (ra_Config ic)).2 = None ->
  (types.MasterCount (ra_Config ic) < 0
   \/ makeslice_max_len < types.MasterCount (ra_Config ic))%Z ->
  exists msg,
    run_Generate rt dependencies a
    = ({| recv := a; requested := [installconfig_InstallConfig] |},
       Panicked msg).
Proof.
  intros Hic Hdns Hrange. unfold run_Generate, Generate.
  erewrite bind_Done; [|by apply Parents_Get_present].
  unfold getTemplateData, mbind, M_bind, bind.
  destruct (installconfig_ClusterDNSIP (ra_Config ic)) as [ip oerr].
  simpl in Hdns. subst oerr.
  assert (Hpanic : ((types.MasterCount (ra_Config ic) <? 0)
                    || (makeslice_max_len <? types.MasterCount (ra_Config ic)))%Z
                   = true).
  { apply orb_true_iff. destruct Hrange as [Hneg|Hbig];
      [left|right]; by apply Z.ltb_lt. }
  rewrite Hpanic. by eexists.
Qed.

(** X16: the errors [Generate] returns.  A non-nil error returned by
    [Generate] is either the error of [ClusterDNSIP], wrapped by
    [getTemplateData] and again by [Generate], or the error of
    [json.Marshal], wrapped once; every other failure is a panic. *)
Theorem Generate_error_causes (rt : Runtime) (dependencies : Parents)
    (a : Bootstrap) e :
  (run_Generate rt dependencies a).2 = Done (Some e) ->
  (exists ic err,
     Parents_lookup dependencies installconfig_InstallConfig = Done ic
     /\ (installconfig_ClusterDNSIP (ra_Config ic)).2 = Some err
     /\ e = ErrWrap
             (ErrWrap err "failed to get ClusterDNSIP from InstallConfig")
             "failed to get bootstrap templates")
  \/ (exists cfg err,
        Config (recv (run_Generate rt dependencies a).1) = Some cfg
        /\ (json_Marshal cfg).2 = Some err
        /\ e = ErrWrap err "failed to Marshal Ignition config").
Proof.
  destruct (run_Generate rt dependencies a) as [s res] eqn:Hs. simpl.
  intros ->. unfold run_Generate, Generate in Hs.
  apply bind_Done_inv in Hs as (s1 & ic & Hic & H).
  apply Parents_Get_Done_inv in Hic.
  apply bind_Done_inv in H as (s2 & [td oerr] & Htd & H).
  assert (Hres : (getTemplateData rt (ra_Config ic) s1).2 = Done (td, oerr))
    by by rewrite Htd.
  destruct oerr as [err|].
  - left. injection H as _ <-.
    destruct (getTemplateData_cases rt _ s1 _ Hres)
      as [(err0 & Hdns & [= -> ->]) | (td' & _ & _ & [=] & _)].
    by exists ic, err0.
  - right.
    do 8 (apply bind_Done_inv in H as (? & ? & _ & H)).
    apply bind_Done_inv in H as (s9 & config & Hcfg & H).
    unfold Config_deref in Hcfg.
    destruct (Config (recv _)) as [c|] eqn:Hc; [|discriminate].
    injection Hcfg as <- <-.
    destruct (json_Marshal c) as [data [err|]] eqn:Hm.
    + injection H as <- <-. exists c, err. by rewrite Hm.
    + apply bind_Done_inv in H as (? & ? & _ & H). discriminate H.
Qed.

End TemplateData.

(** ** The requests of [Generate], whatever way it ends *)

Section Trace.
Import asset bootstrap.
Context {content : Content} {ext : Externals}.

(** The requests made so far are among those of [Generate_trace]. *)
Lemma within_trace_Get dependencies k :
  k ∈ Generate_trace ->
  pres (fun s => requested s ⊆ Generate_trace) (Parents_Get dependencies k).
Proof.
  intros Hk s Hs.
  assert (Hlog : (requested s ++ [k])%list ⊆ Generate_trace).
  { intros x [Hx | Hx%list_elem_of_singleton]%elem_of_app;
      [by apply Hs | by subst x]. }
  done.
Qed.

Lemma within_trace_Config_assign c :
  pres (fun s => requested s ⊆ Generate_trace) (Config_assign c).
Proof. by intros s Hs. Qed.

Lemma within_trace_append fs :
  pres (fun s => requested s ⊆ Generate_trace) fs ->
  pres (fun s => requested s ⊆ Generate_trace) (append_Storage_Files fs).
Proof. apply pres_append_Storage_Files, within_trace_Config_assign. Qed.

Ltac within :=
  repeat first
    [ apply within_trace_append
    | apply pres_applyTemplateData
    | apply pres_ret
    | apply pres_panic
    | apply within_trace_Get; declared
    | apply pres_for_range; intros ? ?
    | apply pres_bind; [|intros ?] ].

Lemma within_trace_Generate rt dependencies :
  pres (fun s => requested s ⊆ Generate_trace) (Generate rt dependencies).
Proof.
  unfold Generate.
  apply pres_bind; [apply within_trace_Get; declared|]. intros installConfig.
  apply pres_bind; [apply pres_getTemplateData|]. intros [td [err|]].
  { apply pres_ret. }
  apply pres_bind; [apply within_trace_Config_assign|]. intros _.
  apply pres_bind.
  { unfold addBootstrapFiles. within.
    match goal with |- context [ra_Files ?r] => destruct (ra_Files r) end;
      within. }
  intros _. apply pres_bind; [unfold addBootkubeFiles; within|]. intros _.
  apply pres_bind.
  { apply pres_addTemporaryBootkubeFiles, within_trace_Config_assign. }
  intros _. apply pres_bind; [unfold addTectonicFiles; within|]. intros _.
  apply pres_bind.
  { unfold addTLSCertFiles. apply pres_bind; [|intros _; within].
    apply pres_for_range. intros k Hk. apply pres_bind; [|intros r; within].
    apply within_trace_Get. unfold Generate_trace.
    apply elem_of_app. right. apply elem_of_app. by left. }
  intros _.
  apply pres_bind;
    [apply pres_append_Systemd_Units, within_trace_Config_assign|].
  intros _.
  apply pres_bind;
    [apply pres_append_Passwd_Users, within_trace_Config_assign|].
  intros _. apply pres_bind; [apply pres_Config_deref|]. intros config.
  destruct (json_Marshal config) as [data [err|]]; [apply pres_ret|].
  apply pres_bind; [by intros s Hs|]. intros _. apply pres_ret.
Qed.

(** X7: whatever way [Generate] ends (nil, an error, a panic), the asset
    types it requested are among the nineteen of [Generate_trace]; the
    ingress certificate, which [Dependencies] declares, is never
    requested. *)
Theorem Generate_requests_within_trace (rt : Runtime)
    (dependencies : Parents) (a : Bootstrap) :
  requested (run_Generate rt dependencies a).1 ⊆ Generate_trace
  /\ tls_IngressCertKey ∈ Dependencies
  /\ tls_IngressCertKey ∉ requested (run_Generate rt dependencies a).1.
Proof.
  assert (Hin : requested (run_Generate rt dependencies a).1 ⊆ Generate_trace).
  { apply within_trace_Generate. intros x Hx. by apply elem_of_nil in Hx. }
  split; [done|]. split; [declared|].
  intros Hreq. apply Hin in Hreq. revert Hreq.
  apply (bool_decide_unpack _). by vm_compute.
Qed.

End Trace.

(** ** The steps of [Generate], one by one *)

Section Steps.
Import asset bootstrap.
Context {content : Content} {ext : Externals}.

Ltac restep :=
  unfold stepped; simpl;
  rewrite ?Config_with_files_app, ?Config_with_files_nil,
    ?app_nil_r, <- ?app_assoc;
  simpl; try reflexivity.

Lemma for_range_app {S A} (xs ys : list A) (body : A -> M S unit) s :
  for_range (xs ++ ys) body s
  = (for_range xs body ≫= fun _ => for_range ys body) s.
Proof.
  revert s. induction xs as [|x xs IH]; intros s; [reflexivity|].
  simpl. unfold mbind, M_bind, bind in *.
  destruct (body x s) as [s1 [[]|msg]]; [apply IH|reflexivity].
Qed.

(** A loop that panics at [x] after going through [pre]. *)
Lemma for_range_Panicked {S A} (pre post : list A) x (body : A -> M S unit)
    s s1 s2 msg :
  for_range pre body s = (s1, Done tt) ->
  body x s1 = (s2, Panicked msg) ->
  for_range (pre ++ x :: post) body s = (s2, Panicked msg).
Proof.
  intros Hpre Hx. rewrite for_range_app.
  erewrite bind_Done; [|exact Hpre]. simpl. by apply bind_Panicked.
Qed.

(** X13: [addBootstrapFiles] uses the first file of the kubelet kubeconfig
    only: with at least one file it appends the kubeconfig file with that
    file's bytes and then the progress script; with no file at all it
    panics, after the request, without touching [a.Config]. *)
Theorem addBootstrapFiles_first_file (dependencies : Parents) kubelet
    (s : GenSt) cfg :
  dependencies kubeconfig_Kubelet = Some kubelet ->
  Config (recv s) = Some cfg ->
  match ra_Files kubelet with
  | f0 :: _ =>
      addBootstrapFiles dependencies s
      = (stepped s [kubeconfig_Kubelet]
           (Config_with_files cfg (bootstrap_files f0)), Done tt)
  | [] =>
      exists msg,
        addBootstrapFiles dependencies s
        = ({| recv := recv s;
              requested := requested s ++ [kubeconfig_Kubelet] |},
           Panicked msg)
  end.
Proof.
  intros Hdep Hcfg. destruct (ra_Files kubelet) as [|f0 rest] eqn:Hfiles.
  - unfold addBootstrapFiles.
    erewrite bind_Done; [|by apply Parents_Get_present].
    rewrite Hfiles. eexists.
    apply bind_Panicked.
    by apply (append_Storage_Files_Panicked _ _ cfg).
  - apply (addBootstrapFiles_run dependencies kubelet);
      [by apply Parents_lookup_present| |done].
    by rewrite Hfiles.
Qed.

(** X14: a template that fails makes [addBootkubeFiles] panic.  When it is
    the bootkube script, nothing was appended; when it is a configuration
    override, the script and the files of the overrides before it stay
    appended to [a.Config]. *)
Theorem addBootkubeFiles_template_failure (dependencies : Parents) td admin
    manifests (s : GenSt) cfg :
  dependencies kubeconfig_Admin = Some admin ->
  dependencies manifests_Manifests = Some manifests ->
  Config (recv s) = Some cfg ->
  (~ executes BootkubeShFileTemplate td ->
   exists msg,
     addBootkubeFiles dependencies td s
     = ({| recv := recv s;
           requested :=
             requested s ++ [kubeconfig_Admin; manifests_Manifests] |},
        Panicked msg))
  /\ (forall pre o post,
        BootkubeConfigOverrides = (pre ++ o :: post)%list ->
        executes BootkubeShFileTemplate td ->
        Forall (fun o' => executes o' td) pre ->
        ~ executes o td ->
        exists msg,
          addBootkubeFiles dependencies td s
          = (stepped s [kubeconfig_Admin; manifests_Manifests]
               (Config_with_files cfg
                  (FileFromString "/usr/local/bin/bootkube.sh" (octal 5 5 5)
                     (rendered BootkubeShFileTemplate td)
                   :: override_files td pre)),
             Panicked msg)).
Proof.
  intros Hadmin Hman Hcfg. split.
  - intros Hsh. unfold addBootkubeFiles.
    erewrite bind_Done; [|by apply Parents_Get_present].
    erewrite bind_Done; [|by apply Parents_Get_present].
    destruct (append_unrendered BootkubeShFileTemplate td
                (fun text => FileFromString "/usr/local/bin/bootkube.sh"
                               (octal 5 5 5) text)
                {| recv := recv s;
                   requested := (requested s ++ [kubeconfig_Admin])
                                ++ [manifests_Manifests] |} cfg Hcfg Hsh)
      as [msg Hmsg].
    exists msg. erewrite bind_Panicked; [|exact Hmsg].
    by rewrite <- app_assoc.
  - intros pre o post Hov Hsh Hpre Ho. unfold addBootkubeFiles.
    erewrite bind_Done; [|by apply Parents_Get_present].
    erewrite bind_Done; [|by apply Parents_Get_present].
    erewrite bind_Done;
      [|by apply (append_rendered BootkubeShFileTemplate td
                    (fun text =>
                       FileFromString "/usr/local/bin/bootkube.sh"
                         (octal 5 5 5) text) _ cfg)].
    rewrite Hov.
    match goal with
    | |- context [for_range _ ?body ≫= _] =>
        destruct (append_unrendered o td
                    (fun text =>
                       FileFromString
                         (filepath_Join
                            [filepath_Join [rootDir; "bootkube-config-overrides"];
                             tmpl_Name o])
                         (octal 6 0 0) text)
                    (stepped
                       (stepped
                          {| recv := recv s;
                             requested :=
                               (requested s ++ [kubeconfig_Admin])
                               ++ [manifests_Manifests] |} []
                          (Config_with_files cfg
                             [FileFromString "/usr/local/bin/bootkube.sh"
                                (octal 5 5 5)
                                (rendered BootkubeShFileTemplate td)])) []
                       (Config_with_files
                          (Config_with_files cfg
                             [FileFromString "/usr/local/bin/bootkube.sh"
                                (octal 5 5 5)
                                (rendered BootkubeShFileTemplate td)])
                          (override_files td pre)))
                    _ eq_refl Ho) as [msg Hmsg]
    end.
    exists msg. erewrite bind_Panicked.
    2: { eapply for_range_Panicked; [by apply overrides_run|exact Hmsg]. }
    restep.
Qed.

(** X15: [addTLSCertFiles] requests the fourteen certificate assets in
    their fixed order and then the etcd client certificate again; when each
    request yields an instance it appends the files of each asset in that
    order and last the file /etc/ssl/etcd/ca.crt holding what the etcd
    client asset's [Cert] returns.  When [Parents.Get] panics at one of the
    assets, [addTLSCertFiles] panics there, with the files of the assets
    before it appended. *)
Theorem addTLSCertFiles_in_order (dependencies : Parents)
    (r : AssetKind -> Resolved) (s : GenSt) cfg :
  Config (recv s) = Some cfg ->
  ((forall k, k ∈ tlsCertAssets ->
      Parents_lookup dependencies k = Done (r k)) ->
   addTLSCertFiles dependencies s
   = (stepped s (tlsCertAssets ++ [tls_EtcdClientCertKey])
        (Config_with_files cfg
           (cert_files r tlsCertAssets
            ++ [FileFromBytes "/etc/ssl/etcd/ca.crt" (octal 6 0 0)
                  (ra_Cert (r tls_EtcdClientCertKey))])), Done tt))
  /\ (forall pre k post msg,
        tlsCertAssets = (pre ++ k :: post)%list ->
        (forall k', k' ∈ pre ->
           Parents_lookup dependencies k' = Done (r k')) ->
        Parents_lookup dependencies k = Panicked msg ->
        addTLSCertFiles dependencies s
        = (stepped s (pre ++ [k]) (Config_with_files cfg (cert_files r pre)),
           Panicked msg)).
Proof.
  intros Hcfg. split.
  - intros Hdeps. by apply addTLSCertFiles_run.
  - intros pre k post msg Hsplit Hpre Hk. unfold addTLSCertFiles.
    rewrite Hsplit.
    erewrite bind_Panicked.
    2: { eapply for_range_Panicked;
           [by apply (cert_files_run dependencies r)|].
         apply bind_Panicked. by apply Parents_Get_panics. }
    restep.
Qed.

End Steps.

Section OutcomeExamples.
Import asset bootstrap fixture.

(** The dependencies, template data and kubeconfig of the fixture are what
    [Generate] needs. *)
Lemma fixture_inputs :
  Generate_inputs rt_plain parents parent_of
    (template_data defaultReleaseImage) kubelet_file.
Proof.
  split.
  - intros k _. reflexivity.
  - vm_compute. reflexivity.
  - reflexivity.
  - reflexivity.
  - repeat constructor.
  - reflexivity.
Defined.

Lemma fixture_inputs_backward :
  Generate_inputs rt_backward parents parent_of
    (template_data defaultReleaseImage) kubelet_file.
Proof.
  split.
  - intros k _. reflexivity.
  - vm_compute. reflexivity.
  - reflexivity.
  - reflexivity.
  - repeat constructor.
  - reflexivity.
Defined.

Lemma fixture_inputs_failing_marshal :
  @Generate_inputs content externals_failing_marshal rt_plain parents
    parent_of (template_data defaultReleaseImage) kubelet_file.
Proof.
  split.
  - intros k _. reflexivity.
  - vm_compute. reflexivity.
  - reflexivity.
  - reflexivity.
  - repeat constructor.
  - reflexivity.
Defined.

(** With every dependency resolved [Generate] returns nil. *)
Lemma Generate_succeeds_iff_witness :
  (run_Generate rt_plain parents Bootstrap_zero).2 = Done None.
Proof.
  apply (proj2 (Generate_succeeds_iff rt_plain parents Bootstrap_zero)).
  exists parent_of, (template_data defaultReleaseImage), kubelet_file.
  split; [exact (Generate_inputs_obtained _ _ _ _ _ fixture_inputs)
         | reflexivity].
Defined.

(** A run on a receiver that held a loaded artifact ends in the generated
    state. *)
Lemma Generate_success_state_witness :
  run_Generate rt_plain parents loaded_before
  = ({| recv :=
          {| Config := Some (generated_Config rt_plain parent_of
                               (template_data defaultReleaseImage)
                               kubelet_file);
             File :=
               Some {| Filename := bootstrapIgnFilename;
                       Data := (json_Marshal
                                  (generated_Config rt_plain parent_of
                                     (template_data defaultReleaseImage)
                                     kubelet_file)).1 |} |};
        requested := Generate_trace |}, Done None).
Proof.
  apply (Generate_success_state rt_plain parents parent_of
           (template_data defaultReleaseImage) kubelet_file).
  - exact fixture_inputs.
  - reflexivity.
Defined.

(** With a marshaller that fails, the receiver keeps its file and gets the
    built configuration. *)
Lemma Generate_marshal_failure_witness :
  @run_Generate content externals_failing_marshal rt_plain parents
    loaded_before
  = ({| recv :=
          {| Config :=
               Some (@generated_Config content externals_failing_marshal
                       rt_plain parent_of (template_data defaultReleaseImage)
                       kubelet_file);
             File := File loaded_before |};
        requested := Generate_trace |},
     Done (Some (ErrWrap (ErrOther "json: unsupported value")
                   "failed to Marshal Ignition config"))).
Proof.
  apply (@Generate_marshal_failure content externals_failing_marshal rt_plain
           parents parent_of (template_data defaultReleaseImage) kubelet_file
           []).
  - exact fixture_inputs_failing_marshal.
  - reflexivity.
Defined.

(** With a [Parents.Get] that panics for an absent type and a view
    without the tectonic manifests, [Generate] does not return nil. *)
Lemma Generate_needs_every_request_witness :
  (run_Generate rt_plain (parents_without manifests_Tectonic) loaded_before).2
  <> Done None.
Proof.
  apply (Generate_needs_every_request rt_plain
           (parents_without manifests_Tectonic) loaded_before
           manifests_Tectonic
           "reflect: call of reflect.Value.Elem on zero Value").
  - apply (bool_decide_unpack _). vm_compute. reflexivity.
  - reflexivity.
Defined.

(** The runs in the two iteration orders build the same files up to
    order. *)
Lemma Generate_files_up_to_order_witness :
  exists cfg1 cfg2,
    Config (recv (run_Generate rt_plain parents Bootstrap_zero).1) = Some cfg1
    /\ Config (recv (run_Generate rt_backward parents Bootstrap_zero).1)
       = Some cfg2
    /\ igntypes.Storage_Files cfg1 ≡ₚ igntypes.Storage_Files cfg2
    /\ igntypes.Ignition_Version cfg1 = igntypes.Ignition_Version cfg2
    /\ igntypes.Systemd_Units cfg1 = igntypes.Systemd_Units cfg2
    /\ igntypes.Passwd_Users cfg1 = igntypes.Passwd_Users cfg2.
Proof.
  apply (Generate_files_up_to_order rt_plain rt_backward parents
           Bootstrap_zero Bootstrap_zero).
  - exact order_forward_wf.
  - exact order_backward_wf.
  - reflexivity.
  - rewrite (Generate_run rt_plain parents parent_of _ _ _
               (Generate_inputs_obtained _ _ _ _ _ fixture_inputs)).
    reflexivity.
  - rewrite (Generate_run rt_backward parents parent_of _ _ _
               (Generate_inputs_obtained _ _ _ _ _ fixture_inputs_backward)).
    reflexivity.
Defined.

(** Loading the generated file into a fresh receiver gives the generated
    receiver. *)
Lemma Load_after_Generate_witness :
  Load (fetcher_of
          (File (recv (run_Generate rt_plain parents Bootstrap_zero).1)))
    Bootstrap_zero
  = (recv (run_Generate rt_plain parents Bootstrap_zero).1, Done (true, None)).
Proof.
  apply (Load_after_Generate rt_plain parents Bootstrap_zero).
  - rewrite (Generate_run rt_plain parents parent_of _ _ _
               (Generate_inputs_obtained _ _ _ _ _ fixture_inputs)).
    reflexivity.
  - intros cfg data Hcfg Hm.
    rewrite (Generate_run rt_plain parents parent_of _ _ _
               (Generate_inputs_obtained _ _ _ _ _ fixture_inputs)) in Hcfg.
    injection Hcfg as <-. vm_compute in Hm. injection Hm as <-.
    vm_compute. reflexivity.
  - reflexivity.
Defined.

(** A failed regeneration and an unreadable store keep the loaded file. *)
Lemma failed_calls_keep_Files_witness :
  Files (recv (run_Generate rt_plain (parents_without manifests_Tectonic)
                 loaded_before).1)
  = Files loaded_before
  /\ Files (Load fetcher_broken loaded_before).1 = Files loaded_before.
Proof.
  split.
  - apply (proj1 (failed_calls_keep_Files rt_plain
                    (parents_without manifests_Tectonic) fetcher_broken
                    loaded_before)).
    vm_compute. discriminate.
  - apply (proj2 (failed_calls_keep_Files rt_plain parents fetcher_broken
                    loaded_before)).
    intros err. vm_compute. discriminate.
Defined.

End OutcomeExamples.

Section StepExamples.
Import asset bootstrap fixture.

(** An install configuration without service network address. *)
Lemma Generate_dns_failure_witness :
  run_Generate rt_plain (parents_of install_config_without_cidr) loaded_before
  = ({| recv := loaded_before; requested := [installconfig_InstallConfig] |},
     Done (Some (ErrWrap
                   (ErrWrap (ErrOther "invalid service CIDR")
                      "failed to get ClusterDNSIP from InstallConfig")
                   "failed to get bootstrap templates"))).
Proof.
  apply (Generate_dns_failure rt_plain (parents_of install_config_without_cidr)
           {| ra_Files := ra_Files (parent_of installconfig_InstallConfig);
              ra_Cert := ra_Cert (parent_of installconfig_InstallConfig);
              ra_Config := install_config_without_cidr |}).
  - reflexivity.
  - reflexivity.
Defined.

(** A master pool with minus one replicas, and one with the largest
    64-bit count. *)
Lemma Generate_master_count_out_of_range_witness :
  (exists msg,
     run_Generate rt_plain
       (parents_of (install_config [pool "master" (Some (-1)%Z)]))
       loaded_before
     = ({| recv := loaded_before;
           requested := [installconfig_InstallConfig] |}, Panicked msg))
  /\ (exists msg,
        run_Generate rt_plain
          (parents_of
             (install_config [pool "master" (Some (2 ^ 63 - 1)%Z)]))
          loaded_before
        = ({| recv := loaded_before;
              requested := [installconfig_InstallConfig] |}, Panicked msg)).
Proof.
  split.
  - apply (Generate_master_count_out_of_range rt_plain
             (parents_of (install_config [pool "master" (Some (-1)%Z)]))
             {| ra_Files := ra_Files (parent_of installconfig_InstallConfig);
                ra_Cert := ra_Cert (parent_of installconfig_InstallConfig);
                ra_Config := install_config [pool "master" (Some (-1)%Z)] |}).
    + reflexivity.
    + reflexivity.
    + left. reflexivity.
  - apply (Generate_master_count_out_of_range rt_plain
             (parents_of
                (install_config [pool "master" (Some (2 ^ 63 - 1)%Z)]))
             {| ra_Files := ra_Files (parent_of installconfig_InstallConfig);
                ra_Cert := ra_Cert (parent_of installconfig_InstallConfig);
                ra_Config :=
                  install_config [pool "master" (Some (2 ^ 63 - 1)%Z)] |}).
    + reflexivity.
    + reflexivity.
    + right. reflexivity.
Defined.

(** The release image with the variable set, and without it. *)
Lemma getTemplateData_release_image_witness :
  ReleaseImage (template_record three_masters "example.com/release:custom")
  = "example.com/release:custom"
  /\ ReleaseImage (template_record three_masters defaultReleaseImage)
     = defaultReleaseImage.
Proof.
  split.
  - apply (proj2 (proj2 (getTemplateData_release_image (ext := externals) rt_override
                           (ra_Config (parent_of installconfig_InstallConfig))
                           tt
                           (template_record three_masters
                              "example.com/release:custom")
                           None ltac:(vm_compute; reflexivity)))
             "example.com/release:custom").
    + reflexivity.
    + discriminate.
  - apply (proj1 (getTemplateData_release_image (ext := externals) rt_plain
                    (ra_Config (parent_of installconfig_InstallConfig)) tt
                    (template_record three_masters defaultReleaseImage)
                    None ltac:(vm_compute; reflexivity))).
    reflexivity.
Defined.

(** Three masters give three endpoints; no master pool gives one. *)
Lemma getTemplateData_etcd_endpoints_witness :
  (exists endpoints : list string,
     three_masters = strings_Join endpoints ","
     /\ Z.of_nat (length endpoints) = 3%Z
     /\ forall i, (i < length endpoints)%nat ->
          endpoints !! i = Some (etcdEndpoint "demo" i "example.com"))
  /\ EtcdCluster
       (template_record "https://demo-etcd-0.example.com:2379"
          defaultReleaseImage)
     = "https://demo-etcd-0.example.com:2379".
Proof.
  split.
  - exact (proj1 (getTemplateData_etcd_endpoints (ext := externals) rt_plain
                    (ra_Config (parent_of installconfig_InstallConfig)) tt
                    (template_record three_masters defaultReleaseImage)
                    None ltac:(vm_compute; reflexivity))).
  - apply (proj2 (getTemplateData_etcd_endpoints (ext := externals) rt_plain
                    (install_config [pool "worker" (Some 5%Z)]) tt
                    (template_record "https://demo-etcd-0.example.com:2379"
                       defaultReleaseImage)
                    None ltac:(vm_compute; reflexivity))).
    intros m Hin [Hname _].
    apply list_elem_of_singleton in Hin. subst m. discriminate Hname.
Defined.

(** A kubelet kubeconfig with one file, and one without any. *)
Lemma addBootstrapFiles_first_file_witness :
  addBootstrapFiles parents started
  = (stepped started [kubeconfig_Kubelet]
       (Config_with_files (config_of_version "2.2.0")
          (bootstrap_files kubelet_file)), Done tt)
  /\ exists msg,
       addBootstrapFiles parents_kubelet_without_file started
       = ({| recv := recv started;
             requested := requested started ++ [kubeconfig_Kubelet] |},
          Panicked msg).
Proof.
  split.
  - apply (addBootstrapFiles_first_file parents
             (parent_of kubeconfig_Kubelet) started
             (config_of_version "2.2.0")); reflexivity.
  - apply (addBootstrapFiles_first_file parents_kubelet_without_file
             kubelet_without_file started (config_of_version "2.2.0"));
      reflexivity.
Defined.

(** A bootkube script that fails, and a second override that fails after
    a first one that executes. *)
Lemma addBootkubeFiles_template_failure_witness :
  (exists msg,
     @addBootkubeFiles content_failing_script externals parents
       (template_data defaultReleaseImage) started
     = ({| recv := recv started;
           requested :=
             requested started ++ [kubeconfig_Admin; manifests_Manifests] |},
        Panicked msg))
  /\ (exists msg,
        @addBootkubeFiles content_failing_override externals parents
          (template_data defaultReleaseImage) started
        = (stepped started [kubeconfig_Admin; manifests_Manifests]
             (Config_with_files (config_of_version "2.2.0")
                [ file_from_string "/usr/local/bin/bootkube.sh" (octal 5 5 5)
                    defaultReleaseImage;
                  file_from_string
                    "/opt/tectonic/bootkube-config-overrides/kube-apiserver-config-overrides.yaml"
                    (octal 6 0 0) three_masters ]),
           Panicked msg)).
Proof.
  split.
  - apply (proj1 (@addBootkubeFiles_template_failure content_failing_script
                    externals parents (template_data defaultReleaseImage)
                    (parent_of kubeconfig_Admin)
                    (parent_of manifests_Manifests) started
                    (config_of_version "2.2.0") eq_refl eq_refl eq_refl)).
    discriminate.
  - apply (proj2 (@addBootkubeFiles_template_failure content_failing_override
                    externals parents (template_data defaultReleaseImage)
                    (parent_of kubeconfig_Admin)
                    (parent_of manifests_Manifests) started
                    (config_of_version "2.2.0") eq_refl eq_refl eq_refl)
             [ field_template "kube-apiserver-config-overrides.yaml"
                 (fun d => EtcdCluster d) ]
             (failing_template "kube-scheduler-config-overrides.yaml")
             [ field_template "kube-controller-manager-config-overrides.yaml"
                 (fun d => ClusterDNSIP d) ]).
    + reflexivity.
    + reflexivity.
    + repeat constructor.
    + discriminate.
Defined.

(** All certificate assets resolved; and the etcd CA, fifth in the order,
    absent from a view whose [Parents.Get] panics then. *)
Lemma addTLSCertFiles_in_order_witness :
  addTLSCertFiles parents started
  = (stepped started (tlsCertAssets ++ [tls_EtcdClientCertKey])
       (Config_with_files (config_of_version "2.2.0")
          (cert_files parent_of tlsCertAssets
           ++ [FileFromBytes "/etc/ssl/etcd/ca.crt" (octal 6 0 0)
                 (ra_Cert (parent_of tls_EtcdClientCertKey))])), Done tt)
  /\ addTLSCertFiles (parents_without tls_EtcdCA) started
     = (stepped started
          [tls_RootCA; tls_KubeCA; tls_AggregatorCA; tls_ServiceServingCA;
           tls_EtcdCA]
          (Config_with_files (config_of_version "2.2.0")
             (cert_files parent_of
                [tls_RootCA; tls_KubeCA; tls_AggregatorCA;
                 tls_ServiceServingCA])),
        Panicked "reflect: call of reflect.Value.Elem on zero Value").
Proof.
  split.
  - apply (proj1 (addTLSCertFiles_in_order parents parent_of started
                    (config_of_version "2.2.0") eq_refl)).
    intros k _. reflexivity.
  - apply (proj2 (addTLSCertFiles_in_order (parents_without tls_EtcdCA)
                    parent_of started (config_of_version "2.2.0") eq_refl)
             [tls_RootCA; tls_KubeCA; tls_AggregatorCA; tls_ServiceServingCA]
             tls_EtcdCA
             [tls_ClusterAPIServerCertKey; tls_EtcdClientCertKey;
              tls_APIServerCertKey; tls_OpenshiftAPIServerCertKey;
              tls_APIServerProxyCertKey; tls_AdminCertKey; tls_KubeletCertKey;
              tls_MCSCertKey; tls_ServiceAccountKeyPair]).
    + reflexivity.
    + intros k Hk.
      repeat (apply elem_of_cons in Hk as [->|Hk]; [reflexivity|]).
      by apply elem_of_nil in Hk.
    + reflexivity.
Defined.

(** The error returned for an install configuration without service
    network address is of the first kind. *)
Lemma Generate_error_causes_witness :
  (exists ic err,
     Parents_lookup (parents_of install_config_without_cidr)
       installconfig_InstallConfig
     = Done ic
     /\ (installconfig_ClusterDNSIP (ra_Config ic)).2 = Some err
     /\ ErrWrap
          (ErrWrap (ErrOther "invalid service CIDR")
             "failed to get ClusterDNSIP from InstallConfig")
          "failed to get bootstrap templates"
        = ErrWrap
            (ErrWrap err "failed to get ClusterDNSIP from InstallConfig")
            "failed to get bootstrap templates")
  \/ (exists cfg err,
        Config (recv (run_Generate rt_plain
                        (parents_of install_config_without_cidr)
                        loaded_before).1) = Some cfg
        /\ (json_Marshal cfg).2 = Some err
        /\ ErrWrap
             (ErrWrap (ErrOther "invalid service CIDR")
                "failed to get ClusterDNSIP from InstallConfig")
             "failed to get bootstrap templates"
           = ErrWrap err "failed to Marshal Ignition config").
Proof.
  apply (Generate_error_causes rt_plain
           (parents_of install_config_without_cidr) loaded_before).
  vm_compute. reflexivity.
Defined.

End StepExamples.
